(** * listr2: the default (interactive) renderer

    A shallow embedding of [src/renderer/default.renderer.ts]: the text
    layout of one line ([formatString]), the per-task data lines
    ([dumpData]), the icon selection ([getSymbol]) and the depth-first
    frame composition ([multiLineRenderer], [renderBottomBar],
    [createRender]) together with the two private regions the renderer
    owns, the bottom bar and the prompt bar.

    Conventions of the embedding.
    - A JavaScript string is the list of its UTF-16 code units.
    - A JavaScript [number] that the renderer only uses as an integer
      (indentation, level, column count, retry count, item count) is a [Z].
    - A method that may throw returns a [Result]; a method that mutates
      the renderer takes the renderer and returns the new one.
    - [undefined] and [null] are [None].
    - The host is POSIX ([os.EOL] is LF) and colours are off. *)

From Stdlib Require Import ZArith NArith List Bool Lia Ascii DecimalString.
From Stdlib Require String.
Import ListNotations String.StringSyntax.
Open Scope Z_scope.
Delimit Scope string_scope with string.
Bind Scope string_scope with String.string.

Set Warnings "-register-all".

(* ================================================================== *)
(** ** JavaScript strings *)

Definition char := N.
Definition jsstring := list char.

(** A string literal of the source, for ASCII text. *)
Definition lit (s : String.string) : jsstring :=
  map N_of_ascii (String.list_ascii_of_string s).
Arguments lit s%_string_scope.

Definition isEmpty {A} (s : list A) : bool :=
  match s with [] => true | _ => false end.

Fixpoint str_eqb (a b : jsstring) : bool :=
  match a, b with
  | [], [] => true
  | x :: a', y :: b' => N.eqb x y && str_eqb a' b'
  | _, _ => false
  end.

(** ECMAScript LineTerminator: LF, CR, LS, PS. *)
Definition isLineTerminator (c : char) : bool :=
  (N.eqb c 10 || N.eqb c 13 || N.eqb c 8232 || N.eqb c 8233)%bool.

(** ECMAScript WhiteSpace and LineTerminator, what [trim] and the regular
    expression class [\s] remove or match. *)
Definition isWhiteSpace (c : char) : bool :=
  (isLineTerminator c
   || N.eqb c 9 || N.eqb c 11 || N.eqb c 12 || N.eqb c 32 || N.eqb c 160
   || N.eqb c 5760 || (N.leb 8192 c && N.leb c 8202)
   || N.eqb c 8239 || N.eqb c 8287 || N.eqb c 12288 || N.eqb c 65279)%bool.

Fixpoint trimStart (s : jsstring) : jsstring :=
  match s with
  | [] => []
  | c :: s' => if isWhiteSpace c then trimStart s' else s
  end.

Definition trimEnd (s : jsstring) : jsstring := rev (trimStart (rev s)).

(** [String.prototype.trim]. *)
Definition trim (s : jsstring) : jsstring := trimEnd (trimStart s).

(** [os.EOL] on a POSIX host. *)
Definition EOL : jsstring := [10%N].

(** [s.split(sep)] for a separator of one code unit. *)
Fixpoint splitOn (sep : char) (s : jsstring) : list jsstring :=
  match s with
  | [] => [[]]
  | c :: s' =>
      if N.eqb c sep then [] :: splitOn sep s'
      else match splitOn sep s' with
           | l :: ls => (c :: l) :: ls
           | [] => [[c]]
           end
  end.

(** [s.split(EOL)]. *)
Definition split (s : jsstring) : list jsstring := splitOn 10%N s.

(** [a.join(sep)] on an array of strings. *)
Fixpoint join (sep : jsstring) (l : list jsstring) : jsstring :=
  match l with
  | [] => []
  | [a] => a
  | a :: rest => a ++ sep ++ join sep rest
  end.

(** [a.filter(Boolean)] on an array of strings: the empty string is falsy. *)
Definition filterBoolean (l : list jsstring) : list jsstring :=
  filter (fun s => negb (isEmpty s)) l.

(** [a.filter(Boolean)] on an array of [string | undefined]. *)
Fixpoint filterDefined (l : list (option jsstring)) : list jsstring :=
  match l with
  | [] => []
  | Some s :: r => if isEmpty s then filterDefined r else s :: filterDefined r
  | None :: r => filterDefined r
  end.

(** Template literal interpolation of an integer. *)
Definition numberToString (z : Z) : jsstring :=
  lit (NilEmpty.string_of_int (Z.to_int z)).

(* ================================================================== *)
(** ** Exceptions *)

Inductive Error :=
| JsError (msg : String.string)
| RangeError
| TypeError.

Inductive Result (A : Type) :=
| Ok (a : A)
| Throw (e : Error).
Arguments JsError msg%_string_scope.
Arguments Ok {A} a.
Arguments Throw {A} e.

Definition bind {A B} (m : Result A) (k : A -> Result B) : Result B :=
  match m with
  | Ok a => k a
  | Throw e => Throw e
  end.

Notation "x <- m ;; k" := (bind m (fun x => k))
  (at level 61, m at next level, right associativity).
Notation "' p <- m ;; k" := (bind m (fun x => let p := x in k))
  (at level 61, p pattern, m at next level, right associativity).

Definition throws {A} (r : Result A) : bool :=
  match r with Ok _ => false | Throw _ => true end.

(** [a.map((s, i) => f(s, i))] for a callback that may throw. *)
Fixpoint mapi_from {A B} (f : A -> nat -> Result B) (i : nat) (l : list A)
  : Result (list B) :=
  match l with
  | [] => Ok []
  | a :: r => b <- f a i ;; bs <- mapi_from f (S i) r ;; Ok (b :: bs)
  end.

Definition mapi {A B} (f : A -> nat -> Result B) (l : list A) : Result (list B) :=
  mapi_from f 0%nat l.

(* ================================================================== *)
(** ** Text primitives of the packages the renderer imports

    [string-width] counts terminal columns: two for a wide character, none
    for an escape sequence, a control or a combining character, one for the
    rest.  [stringWidth] is that count on text in which every code unit
    takes one column ([oneColumn] below), where the width is the length.
    A statement that gives the exact width or the exact cut of a text the
    renderer receives assumes [oneColumn] of that text; the others use
    the bounds only, which hold of the packages for every text. *)

Definition stringWidth (s : jsstring) : Z := Z.of_nat (length s).

(** Code units that take exactly one column for [string-width] and for
    [slice-ansi] alike: printable ASCII, the ellipsis, the small pointer,
    the arrows U+2190 to U+2193, the pointer U+276F and the Braille
    patterns of the spinner.  None is a control, combining, wide or
    surrogate code unit, and none is listed as an emoji. *)
Definition isOneColumn (c : char) : bool :=
  ((N.leb 32 c && N.leb c 126)
   || N.eqb c 8230 || N.eqb c 8250
   || (N.leb 8592 c && N.leb c 8595)
   || N.eqb c 10095
   || (N.leb 10240 c && N.leb c 10495))%bool.

(** Text made of one-column code units: its width is its length, and a cut
    by columns is a cut by code units. *)
Definition oneColumn (s : jsstring) : Prop := forallb isOneColumn s = true.

(** Lines of one-column text, ended by LF. *)
Definition oneColumnLines (s : jsstring) : Prop :=
  forallb (fun c => isOneColumn c || N.eqb c 10)%bool s = true.

(** U+2026, the ellipsis [cli-truncate] appends. *)
Definition ellipsis : jsstring := [8230%N].

(** [cliTruncate(text, columns)] with the default position (end).  The
    package measures with [string-width] and cuts with [slice-ansi]; on
    [oneColumn] text that is the test on the length and the cut by code
    units below.  The first two branches are the package's for every
    text. *)
Definition cliTruncate (text : jsstring) (columns : Z) : jsstring :=
  if columns <? 1 then []
  else if columns =? 1 then ellipsis
  else if stringWidth text <=? columns then text
  else firstn (Z.to_nat (columns - 1)) text ++ ellipsis.

(** The lookahead [(?!\s*$)] of [indent-string] at the start of a line:
    does the rest of the line hold white space only. *)
Fixpoint lineBlank (s : jsstring) : bool :=
  match s with
  | [] => true
  | c :: s' => if isLineTerminator c then true
               else (isWhiteSpace c && lineBlank s')%bool
  end.

(** [string.replace(/^(?!\s*$)/gm, indent)]: [indent] goes in front of each
    line that is not blank. *)
Fixpoint indentFrom (indent : jsstring) (atStart : bool) (s : jsstring) : jsstring :=
  match s with
  | [] => []
  | c :: s' =>
      (if (atStart && negb (lineBlank s))%bool then indent else [])
        ++ c :: indentFrom indent (isLineTerminator c) s'
  end.

(** [indentString(string, count)], empty lines not included;
    [' '.repeat(count)] raises a RangeError on a negative count. *)
Definition indentString (s : jsstring) (count : Z) : Result jsstring :=
  if count <? 0 then Throw RangeError
  else if count =? 0 then Ok s
  else Ok (indentFrom (repeat 32%N (Z.to_nat count)) true s).

(** *** A reference model of [wrap-ansi] with [{ hard: true }]

    Used to run the renderer on concrete inputs; the general results take
    the wrapping function as a parameter. *)

Definition trimSpacesRight (s : jsstring) : jsstring :=
  rev ((fix drop (r : jsstring) : jsstring :=
          match r with
          | c :: r' => if N.eqb c 32 then drop r' else r
          | [] => []
          end) (rev s)).

(** The rows are kept last row first. *)
Definition appendToLast (rows : list jsstring) (s : jsstring) : list jsstring :=
  match rows with
  | r :: rs => (r ++ s) :: rs
  | [] => [s]
  end.

Definition lastRow (rows : list jsstring) : jsstring :=
  match rows with r :: _ => r | [] => [] end.

(** [wrapWord(rows, word, columns)]. *)
Fixpoint wrapWordLoop (columns : Z) (chars : jsstring) (visible : Z)
  (rows : list jsstring) : list jsstring * Z :=
  match chars with
  | [] => (rows, visible)
  | c :: rest =>
      let '(rows1, visible1) :=
        if visible + 1 <=? columns then (appendToLast rows [c], visible)
        else ([c] :: rows, 0) in
      let visible2 := visible1 + 1 in
      if ((visible2 =? columns) && negb (isEmpty rest))%bool
      then wrapWordLoop columns rest 0 ([] :: rows1)
      else wrapWordLoop columns rest visible2 rows1
  end.

Definition wrapWord (rows : list jsstring) (word : jsstring) (columns : Z)
  : list jsstring :=
  let '(rows1, visible) := wrapWordLoop columns word (stringWidth (lastRow rows)) rows in
  match rows1 with
  | r :: r2 :: rs =>
      if ((visible =? 0) && negb (isEmpty r))%bool then (r2 ++ r) :: rs else rows1
  | _ => rows1
  end.

Fixpoint wrapExecLoop (columns : Z) (words : list jsstring) (first : bool)
  (rows : list jsstring) : list jsstring :=
  match words with
  | [] => rows
  | word :: rest =>
      let rows0 := match rows with r :: rs => trimStart r :: rs | [] => [] end in
      let rowLength0 := stringWidth (lastRow rows0) in
      let '(rows1, rowLength) :=
        if (negb first && (0 <? rowLength0))%bool
        then (appendToLast rows0 [32%N], rowLength0 + 1)
        else (rows0, rowLength0) in
      let len := stringWidth word in
      if columns <? len then
        let remainingColumns := columns - rowLength in
        let breaksStartingThisLine := 1 + (len - remainingColumns - 1) / columns in
        let breaksStartingNextLine := (len - 1) / columns in
        let rows2 := if breaksStartingNextLine <? breaksStartingThisLine
                     then [] :: rows1 else rows1 in
        wrapExecLoop columns rest false (wrapWord rows2 word columns)
      else
        let rows2 := if ((columns <? rowLength + len) && (0 <? rowLength) && (0 <? len))%bool
                     then [] :: rows1 else rows1 in
        wrapExecLoop columns rest false (appendToLast rows2 word)
  end.

(** [exec(string, columns, { hard: true })] on one line. *)
Definition wrapExec (s : jsstring) (columns : Z) : jsstring :=
  if isEmpty (trim s) then []
  else join [10%N]
         (map trimSpacesRight (rev (wrapExecLoop columns (splitOn 32%N s) true [[]]))).

(** [wrapAnsi(string, columns, { hard: true })] on text without CR LF pairs. *)
Definition wrapAnsi (s : jsstring) (columns : Z) : jsstring :=
  join [10%N] (map (fun line => wrapExec line columns) (splitOn 10%N s)).

(* ================================================================== *)
(** ** Styling and symbols

    [chalk] decorates text with a colour; with colours off it returns the
    text as it is, which is the setting of the embedding. *)

Module chalk.
Definition dim (s : jsstring) : jsstring := s.
Definition red (s : jsstring) : jsstring := s.
Definition green (s : jsstring) : jsstring := s.
Definition yellow (s : jsstring) : jsstring := s.
Definition yellowBright (s : jsstring) : jsstring := s.
Definition orange (s : jsstring) : jsstring := s.
End chalk.

(** [figures.main]. *)
Module figures.
Definition tick : jsstring := [10004%N].
Definition cross : jsstring := [10006%N].
Definition warning : jsstring := [9888%N].
Definition pointer : jsstring := [10095%N].
Definition pointerSmall : jsstring := [8250%N].
Definition arrowLeft : jsstring := [8592%N].
Definition arrowDown : jsstring := [8595%N].
Definition squareSmallFilled : jsstring := [9724%N].
End figures.

(* ================================================================== *)
(** ** Data model *)

Inductive State :=
| PENDING | COMPLETED | FAILED | SKIPPED | ROLLING_BACK | ROLLED_BACK | RETRYING.

Definition State_eqb (a b : State) : bool :=
  match a, b with
  | PENDING, PENDING | COMPLETED, COMPLETED | FAILED, FAILED
  | SKIPPED, SKIPPED | ROLLING_BACK, ROLLING_BACK
  | ROLLED_BACK, ROLLED_BACK | RETRYING, RETRYING => true
  | _, _ => false
  end.

(** The value of [rendererOptions.formatOutput] at run time: the two
    declared ones, or anything else. *)
Inductive FormatOutput :=
| truncate
| wrap
| otherFormat (v : String.string).
Arguments otherFormat v%_string_scope.

(** The boolean keys of [DefaultRenderer.rendererOptions]. *)
Inductive OptionKey :=
| clearOutput | showSubtasks | collapse | collapseSkips | showSkipMessage
| suffixSkips | collapseErrors | showErrorMessage | suffixRetries | lazy
| showTimer | removeEmptyLines.

(** [this.options] as the constructor leaves it: every key the caller did
    not give is filled from the defaults. *)
Record RendererOptions := {
  indentation : Z;
  formatOutput : FormatOutput;
  flag : OptionKey -> bool
}.

(** The static defaults [DefaultRenderer.rendererOptions]. *)
Definition rendererOptions_default : RendererOptions := {|
  indentation := 2;
  formatOutput := truncate;
  flag := fun k => match k with
                   | clearOutput | lazy | showTimer => false
                   | _ => true
                   end
|}.

(** [rendererTaskOptions.bottomBar?: boolean | number]. *)
Inductive BottomBarOption :=
| bbBool (b : bool)
| bbNumber (n : Z).

(** [DefaultRenderer.rendererTaskOptions]. *)
Record RendererTaskOptions := {
  bottomBarOption : option BottomBarOption;
  persistentOutput : option bool;
  showTimerOption : option bool
}.

(** Modelled from the spec: [task.message], the transient texts of a task.
    The renderer hands [skip] and [error] to parameters declared [string],
    so they are strings when present. *)
Record Message := {
  duration : option Z;
  error : option jsstring;
  skip : option jsstring;
  retry : option Z           (* message.retry.count, when message.retry is set *)
}.

(** Modelled from the spec: the Task class ([@lib/task]) is not among the
    sources.  A task holds its id, its optional title, its state (absent
    until the scheduler starts it), its message, its latest output, its
    ordered subtasks, the renderer options of the list it belongs to (a key
    left out falls back to the renderer's own), its per-task renderer
    options and its [exitOnError] option; [enabled] and [prompt] are what
    [isEnabled()] and [isPrompt()] answer. *)
Inductive Task := mkTask {
  id : String.string;
  title : option jsstring;
  state : option State;
  enabled : bool;
  prompt : bool;
  output : option jsstring;
  message : Message;
  subtasks : list Task;
  rendererOptions : OptionKey -> option bool;
  rendererTaskOptions : RendererTaskOptions;
  exitOnError : option bool      (* task.options.exitOnError *)
}.

(** Modelled from the spec: the tests the renderer asks of a task; each
    state test compares with the one state the task is in. *)
Definition inState (s : State) (task : Task) : bool :=
  match state task with
  | Some s' => State_eqb s' s
  | None => false
  end.

Definition isEnabled (task : Task) : bool := enabled task.
Definition isPrompt (task : Task) : bool := prompt task.
Definition hasTitle (task : Task) : bool :=
  match title task with Some _ => true | None => false end.
Definition hasSubtasks (task : Task) : bool :=
  match subtasks task with [] => false | _ => true end.
Definition isPending (task : Task) : bool := inState PENDING task.
Definition isCompleted (task : Task) : bool := inState COMPLETED task.
Definition hasFailed (task : Task) : bool := inState FAILED task.
Definition isSkipped (task : Task) : bool := inState SKIPPED task.
Definition isRetrying (task : Task) : bool := inState RETRYING task.
Definition isRollingBack (task : Task) : bool := inState ROLLING_BACK task.
Definition hasRolledBack (task : Task) : bool := inState ROLLED_BACK task.

(** One entry of [this.bottomBar]: [{ data?: string[], items?: number }].
    [data] may hold [undefined] where [dumpData] returned nothing. *)
Record BottomBarEntry := {
  data : list (option jsstring);
  items : option Z
}.

(** The renderer object.  [bottomBar] keeps the insertion order of its keys,
    as an object with uuid keys does. *)
Record DefaultRenderer := {
  options : RendererOptions;
  bottomBar : list (String.string * BottomBarEntry);
  promptBar : option jsstring;
  spinner : list jsstring;
  spinnerPosition : nat
}.

(** The spinner frames off Windows. *)
Definition spinner_default : list jsstring :=
  map (fun c => [c])
      [10251; 10265; 10297; 10296; 10300; 10292; 10278; 10279; 10247; 10255]%N.

(** The renderer as the constructor builds it for the given options. *)
Definition newRenderer (opts : RendererOptions) : DefaultRenderer := {|
  options := opts;
  bottomBar := [];
  promptBar := None;
  spinner := spinner_default;
  spinnerPosition := 0
|}.

Definition setPromptBar (p : option jsstring) (self : DefaultRenderer) : DefaultRenderer :=
  {| options := options self; bottomBar := bottomBar self; promptBar := p;
     spinner := spinner self; spinnerPosition := spinnerPosition self |}.

Definition setBottomBar (b : list (String.string * BottomBarEntry))
  (self : DefaultRenderer) : DefaultRenderer :=
  {| options := options self; bottomBar := b; promptBar := promptBar self;
     spinner := spinner self; spinnerPosition := spinnerPosition self |}.

(** *** The object [this.bottomBar] *)

(** [bar[key]]. *)
Fixpoint barGet (key : String.string) (bar : list (String.string * BottomBarEntry))
  : option BottomBarEntry :=
  match bar with
  | [] => None
  | (k, e) :: r => if String.eqb k key then Some e else barGet key r
  end.

(** [bar[key] = e]: a present key keeps its place, a new one goes last. *)
Fixpoint barSet (key : String.string) (e : BottomBarEntry)
  (bar : list (String.string * BottomBarEntry)) : list (String.string * BottomBarEntry) :=
  match bar with
  | [] => [(key, e)]
  | (k, e') :: r => if String.eqb k key then (k, e) :: r else (k, e') :: barSet key e r
  end.

(** [delete bar[key]]. *)
Fixpoint barDelete (key : String.string) (bar : list (String.string * BottomBarEntry))
  : list (String.string * BottomBarEntry) :=
  match bar with
  | [] => []
  | (k, e) :: r => if String.eqb k key then barDelete key r else (k, e) :: barDelete key r
  end.

(** [a.slice(start)]. *)
Definition slice {A} (a : list A) (start : Z) : list A :=
  let len := Z.of_nat (length a) in
  if start <? 0 then skipn (Z.to_nat (Z.max (len + start) 0)) a
  else skipn (Z.to_nat (Z.min start len)) a.

(** [a.slice(-items)]: [-undefined] is NaN, which [slice] takes as 0. *)
Definition sliceLast {A} (a : list A) (items : option Z) : list A :=
  match items with
  | Some n => slice a (- n)
  | None => slice a 0
  end.

(** [data.includes(element)] on [string | undefined] values. *)
Definition value_eqb (a b : option jsstring) : bool :=
  match a, b with
  | Some x, Some y => str_eqb x y
  | None, None => true
  | _, _ => false
  end.

Definition includes (l : list (option jsstring)) (x : option jsstring) : bool :=
  existsb (value_eqb x) l.

(** Truthiness of a [string | undefined] value. *)
Definition truthy (s : option jsstring) : bool :=
  match s with
  | Some s' => negb (isEmpty s')
  | None => false
  end.

(** Where [dumpData] reads its text from. *)
Inductive Source := srcOutput | srcSkip | srcError.

(** The options argument of [createRender]. *)
Record CreateRenderOptions := {
  withTasks : bool;
  withBottomBar : bool;
  withPrompt : bool
}.

Definition createRender_default : CreateRenderOptions :=
  {| withTasks := true; withBottomBar := true; withPrompt := true |}.

(* ================================================================== *)
(** ** Tasks and renderers of the examples *)

Definition emptyMessage : Message :=
  {| duration := None; error := None; skip := None; retry := None |}.

Definition noTaskOptions : RendererTaskOptions :=
  {| bottomBarOption := None; persistentOutput := None; showTimerOption := None |}.

(** An enabled task without subtasks that overrides no renderer option. *)
Definition leaf (i : String.string) (t : option jsstring) (st : option State)
  (out : option jsstring) (msg : Message) (rto : RendererTaskOptions) : Task :=
  {| id := i; title := t; state := st; enabled := true; prompt := false;
     output := out; message := msg; subtasks := [];
     rendererOptions := fun _ => None; rendererTaskOptions := rto;
     exitOnError := None |}.

Arguments leaf i%_string_scope.

(** An enabled task with subtasks. *)
Definition parent (i : String.string) (t : option jsstring) (st : option State)
  (subs : list Task) : Task :=
  {| id := i; title := t; state := st; enabled := true; prompt := false;
     output := None; message := emptyMessage; subtasks := subs;
     rendererOptions := fun _ => None; rendererTaskOptions := noTaskOptions;
     exitOnError := None |}.

Arguments parent i%_string_scope.

(** The default options with another [formatOutput], [indentation] or flag. *)
Definition withFormat (f : FormatOutput) : RendererOptions :=
  {| indentation := 2; formatOutput := f; flag := flag rendererOptions_default |}.

Definition withIndentation (n : Z) : RendererOptions :=
  {| indentation := n; formatOutput := truncate; flag := flag rendererOptions_default |}.

Definition withFlag (key : OptionKey) (b : bool) : RendererOptions :=
  {| indentation := 2; formatOutput := truncate;
     flag := fun k => match k, key with
                      | clearOutput, clearOutput | showSubtasks, showSubtasks
                      | collapse, collapse | collapseSkips, collapseSkips
                      | showSkipMessage, showSkipMessage | suffixSkips, suffixSkips
                      | collapseErrors, collapseErrors
                      | showErrorMessage, showErrorMessage
                      | suffixRetries, suffixRetries | lazy, lazy
                      | showTimer, showTimer
                      | removeEmptyLines, removeEmptyLines => b
                      | _, _ => flag rendererOptions_default k
                      end |}.

(** A stand-in for [parseTaskTime] in examples that show no timer. *)
Definition noTaskTime (d : option Z) : jsstring := [].

(** The default renderer, and one left lazy so that no spinner frame shows. *)
Definition defaultRenderer : DefaultRenderer := newRenderer rendererOptions_default.
Definition lazyRenderer : DefaultRenderer := newRenderer (withFlag lazy true).

(** A retrying task next to a failed one. *)
Definition failedA : Task :=
  leaf "a" (Some (lit "A")) (Some FAILED) None emptyMessage noTaskOptions.

Definition retryingB : Task :=
  leaf "b" (Some (lit "B")) (Some RETRYING) None
    {| duration := None; error := None; skip := None; retry := Some 1 |}
    noTaskOptions.

(** A task that has not finished next to a failed one. *)
Definition pendingB : Task :=
  leaf "b" (Some (lit "B")) (Some PENDING) None emptyMessage noTaskOptions.

(** A task skipped with a reason. *)
Definition skippedInstall : Task :=
  leaf "i" (Some (lit "Install")) (Some SKIPPED) None
    {| duration := None; error := None; skip := Some (lit "not needed"); retry := None |}
    noTaskOptions.

(** A failed task whose error text is its title. *)
Definition failedBuild : Task :=
  leaf "f" (Some (lit "build")) (Some FAILED) None
    {| duration := None; error := Some (lit "build"); skip := None; retry := None |}
    noTaskOptions.

(** A completed task with a title whose only subtask is completed and sets
    no [collapse] of its own, and a pending task without a title. *)
Definition completedSub : Task :=
  leaf "s" (Some (lit "S")) (Some COMPLETED) None emptyMessage noTaskOptions.

Definition completedParent : Task :=
  parent "p" (Some (lit "P")) (Some COMPLETED) [completedSub].

Definition untitledParent : Task :=
  parent "u" None (Some PENDING) [completedSub].

(** A pending task without a title, with [bottomBar: 0], that has written
    [out]. *)
Definition untitledWriter (out : jsstring) : Task :=
  leaf "t" None (Some PENDING) (Some out) emptyMessage
    {| bottomBarOption := Some (bbNumber 0); persistentOutput := None;
       showTimerOption := None |}.


Definition bottomBarTask : Task :=
  leaf "d" (Some (lit "Download")) (Some PENDING) (Some (lit "10%")) emptyMessage
    {| bottomBarOption := Some (bbBool true); persistentOutput := None;
       showTimerOption := None |}.


(** The default renderer with the line of [bottomBarTask] already in the
    bottom bar. *)
Definition rendererWithLine : DefaultRenderer :=
  setBottomBar [("d"%string, {| data := [Some (figures.pointerSmall ++ lit " 10%")];
                                items := Some 1 |})]
               defaultRenderer.

(** A failed task with an error text of its own. *)
Definition failedDeploy : Task :=
  leaf "x" (Some (lit "Deploy")) (Some FAILED) None
    {| duration := None; error := Some (lit "no route to host"); skip := None;
       retry := None |} noTaskOptions.

(** A disabled task. *)
Definition disabledOptional : Task :=
  {| id := "z"%string; title := Some (lit "Optional"); state := None; enabled := false;
     prompt := false; output := None; message := emptyMessage; subtasks := [];
     rendererOptions := fun _ => None; rendererTaskOptions := noTaskOptions;
     exitOnError := None |}.

(** Tasks with [bottomBar: true] in a given state and with a given output,
    the first with [persistentOutput] set. *)
Definition persistentFetch : Task :=
  leaf "k" (Some (lit "Fetch")) (Some COMPLETED) (Some (lit "done")) emptyMessage
    {| bottomBarOption := Some (bbBool true); persistentOutput := Some true;
       showTimerOption := None |}.

Definition download (st : State) (out : jsstring) : Task :=
  leaf "d" (Some (lit "Download")) (Some st) (Some out) emptyMessage
    {| bottomBarOption := Some (bbBool true); persistentOutput := None;
       showTimerOption := None |}.



(* ================================================================== *)
(** ** The renderer *)

Section Renderer.

Set Default Proof Using "Type".

(** [process.stdout.columns]: absent when the output is not a terminal. *)
Variable stdoutColumns : option Z.

(** [cliWrap(str, columns, { hard: true })] of the wrap-ansi package. *)
Variable cliWrap : jsstring -> Z -> jsstring.

(** [parseTaskTime] of [@utils/parse-time], which is not among the sources. *)
Variable parseTaskTime : option Z -> jsstring.

Definition getTaskOptions (task : Task) : RendererTaskOptions :=
  rendererTaskOptions task.

Definition isBottomBar (task : Task) : bool :=
  match bottomBarOption (getTaskOptions task) with
  | Some (bbNumber n) => negb (n =? 0)
  | Some (bbBool b) => b
  | None => false
  end.

Definition hasPersistentOutput (task : Task) : bool :=
  match persistentOutput (getTaskOptions task) with
  | Some true => true
  | _ => false
  end.

Definition hasTimer (task : Task) : bool :=
  match showTimerOption (getTaskOptions task) with
  | Some true => true
  | _ => false
  end.

(** [task.rendererOptions[key] ?? this.options[key]]. *)
Definition getSelfOrParentOption (self : DefaultRenderer) (task : Task)
  (key : OptionKey) : bool :=
  match rendererOptions task key with
  | Some b => b
  | None => flag (options self) key
  end.

Definition getTaskTime (task : Task) : jsstring :=
  chalk.dim (lit "[" ++ parseTaskTime (duration (message task)) ++ lit "]").

Definition indentMultilineOutput (str : jsstring) (i : nat) : Result jsstring :=
  if (0 <? i)%nat then indentString (trim str) 2 else Ok (trim str).

(** [process.stdout.columns ? process.stdout.columns : 80]. *)
Definition terminalColumns : Z :=
  match stdoutColumns with
  | Some c => if c =? 0 then 80 else c
  | None => 80
  end.

(** The width left for the text of a line at [level]. *)
Definition availableColumns (self : DefaultRenderer) (level : Z) : Z :=
  terminalColumns - level * indentation (options self) - 2.

Definition formatString (self : DefaultRenderer) (str icon : jsstring) (level : Z)
  : Result (option jsstring) :=
  if isEmpty (trim str) then Ok None
  else
    let str := icon ++ lit " " ++ str in
    let columns := availableColumns self level in
    parsedStr <-
      match formatOutput (options self) with
      | truncate =>
          mapi (fun s i => s' <- indentMultilineOutput s i ;; Ok (cliTruncate s' columns))
               (split str)
      | wrap =>
          mapi (fun s i => indentMultilineOutput s i) (split (cliWrap str columns))
      | otherFormat _ => Throw (JsError "Format option for the renderer is wrong.")
      end ;;
    let parsedStr := if flag (options self) removeEmptyLines
                     then filterBoolean parsedStr else parsedStr in
    r <- indentString (join EOL parsedStr) (level * indentation (options self)) ;;
    Ok (Some r).

Definition currentFrame (self : DefaultRenderer) : jsstring :=
  nth (spinnerPosition self) (spinner self) (lit "undefined").

Definition getSymbol (self : DefaultRenderer) (task : Task) (data : bool) : jsstring :=
  if isPending task && negb data then
    if flag (options self) lazy
       || getSelfOrParentOption self task showSubtasks && hasSubtasks task
          && negb (forallb (fun subtask => negb (hasTitle subtask)) (subtasks task))
    then chalk.yellow figures.pointer
    else chalk.yellowBright (currentFrame self)
  else if isCompleted task && negb data then
    if hasSubtasks task && existsb hasFailed (subtasks task)
    then chalk.yellow figures.warning
    else chalk.green figures.tick
  else if isRetrying task && negb data then
    if flag (options self) lazy then chalk.orange figures.warning
    else chalk.orange (currentFrame self)
  else if isRollingBack task && negb data then
    if flag (options self) lazy then chalk.red figures.warning
    else chalk.red (currentFrame self)
  else if hasRolledBack task && negb data then chalk.red figures.arrowLeft
  else if hasFailed task && negb data then
    if hasSubtasks task then chalk.red figures.pointer else chalk.red figures.cross
  else if isSkipped task && negb data && negb (getSelfOrParentOption self task collapseSkips)
  then chalk.yellow figures.warning
  else if isSkipped task && (data || getSelfOrParentOption self task collapseSkips)
  then chalk.yellow figures.arrowDown
  else if negb data then chalk.dim figures.squareSmallFilled
  else figures.pointerSmall.

Definition addSuffixToMessage (message suffix : jsstring) (condition : option bool)
  : jsstring :=
  if match condition with Some c => c | None => true end
  then message ++ chalk.dim (lit " [" ++ suffix ++ lit "]")
  else message.

Definition dumpData (self : DefaultRenderer) (task : Task) (level : Z) (source : Source)
  : Result (option jsstring) :=
  let data := match source with
              | srcOutput => output task
              | srcSkip => skip (message task)
              | srcError => error (message task)
              end in
  if hasTitle task
     && match source with srcError => true | _ => false end
     && value_eqb data (title task)
  then Ok None
  else match data with
       | Some d => formatString self d (getSymbol self task true) (level + 1)
       | None => Ok None
       end.

(** The test that replaces a title line by the stopped marker: some task
    of the list has failed, this one has not, its [exitOnError] is not
    [false], and it is neither completed nor skipped. *)
Definition isStopped (tasks : list Task) (task : Task) : bool :=
  existsb hasFailed tasks
  && negb (hasFailed task)
  && negb (match exitOnError task with Some false => true | _ => false end)
  && negb (isCompleted task || isSkipped task).

(** "Current Task Title": what one iteration adds to [output] for the title. *)
Definition currentTaskTitle (self : DefaultRenderer) (tasks : list Task)
  (task : Task) (level : Z) : Result (list (option jsstring)) :=
  match title task with
  | Some taskTitle =>
      if negb (isStopped tasks task) then
        if hasFailed task && getSelfOrParentOption self task collapseErrors then
          l <- formatString self
                 (if negb (hasSubtasks task) && truthy (error (message task))
                     && getSelfOrParentOption self task showErrorMessage
                  then match error (message task) with Some e => e | None => [] end
                  else taskTitle)
                 (getSymbol self task false) level ;;
          Ok [l]
        else if isSkipped task && getSelfOrParentOption self task collapseSkips then
          l <- formatString self
                 (addSuffixToMessage
                    (if truthy (skip (message task))
                        && getSelfOrParentOption self task showSkipMessage
                     then match skip (message task) with Some m => m | None => [] end
                     else taskTitle)
                    (lit "SKIPPED")
                    (Some (getSelfOrParentOption self task suffixSkips)))
                 (getSymbol self task false) level ;;
          Ok [l]
        else if isRetrying task && getSelfOrParentOption self task suffixRetries then
          match retry (message task) with
          | Some count =>
              l <- formatString self
                     (addSuffixToMessage taskTitle
                        (lit "RETRYING-" ++ numberToString count) None)
                     (getSymbol self task false) level ;;
              Ok [l]
          | None => Throw TypeError
          end
        else if isCompleted task && hasTitle task
                && (getSelfOrParentOption self task showTimer || hasTimer task) then
          l <- formatString self (taskTitle ++ lit " " ++ getTaskTime task)
                 (getSymbol self task false) level ;;
          Ok [l]
        else
          l <- formatString self taskTitle (getSymbol self task false) level ;;
          Ok [l]
      else
        l <- formatString self taskTitle (chalk.red figures.squareSmallFilled) level ;;
        Ok [l]
  | None => Ok []
  end.

(** The error or skip text as a secondary line, when it is not collapsed
    into the title. *)
Definition currentTaskMessages (self : DefaultRenderer) (task : Task) (level : Z)
  : Result (list (option jsstring)) :=
  if negb (hasSubtasks task) || negb (getSelfOrParentOption self task showSubtasks) then
    if hasFailed task
       && negb (getSelfOrParentOption self task collapseErrors)
       && (getSelfOrParentOption self task showErrorMessage
           || negb (getSelfOrParentOption self task showSubtasks))
    then l <- dumpData self task level srcError ;; Ok [l]
    else if isSkipped task
            && negb (getSelfOrParentOption self task collapseSkips)
            && (getSelfOrParentOption self task showSkipMessage
                || negb (getSelfOrParentOption self task showSubtasks))
    then l <- dumpData self task level srcSkip ;; Ok [l]
    else Ok []
  else Ok [].

(** The entry a task gets when its bottom bar storage is created. *)
Definition newBottomBarEntry (task : Task) : BottomBarEntry :=
  {| data := [];
     items := match bottomBarOption (getTaskOptions task) with
              | Some (bbBool _) => Some 1
              | Some (bbNumber n) => Some n
              | None => None
              end |}.

Definition isActive (task : Task) : bool :=
  isPending task || isRetrying task || isRollingBack task.

(** "Current Task Output": the lines added to [output] and the renderer
    with its prompt bar and bottom bar updated. *)
Definition currentTaskOutput (self : DefaultRenderer) (task : Task) (level : Z)
  : Result (list (option jsstring) * DefaultRenderer) :=
  if truthy (output task) then
    if isActive task && isPrompt task then
      Ok ([], setPromptBar (output task) self)
    else if isBottomBar task || negb (hasTitle task) then
      l <- dumpData self task (-1) srcOutput ;;
      let chunk := [l] in
      let entry := match barGet (id task) (bottomBar self) with
                   | Some e => e
                   | None => newBottomBarEntry task
                   end in
      let entry' :=
        if negb (existsb (fun element => includes chunk element) (data entry))
           && negb (isSkipped task)
        then {| data := data entry ++ chunk; items := items entry |}
        else entry in
      Ok ([], setBottomBar (barSet (id task) entry' (bottomBar self)) self)
    else if isActive task || hasPersistentOutput task then
      l <- dumpData self task level srcOutput ;;
      Ok ([l], self)
    else Ok ([], self)
  else Ok ([], self).

(** The condition under which the subtasks of a task are rendered. *)
Definition shouldRenderSubtasks (self : DefaultRenderer) (task : Task) : bool :=
  getSelfOrParentOption self task showSubtasks
  && hasSubtasks task
  && (isPending task
      || hasFailed task
      || isCompleted task && negb (hasTitle task)
      || isCompleted task && negb (getSelfOrParentOption self task collapse)
         && negb (existsb (fun subtask =>
                match rendererOptions subtask collapse with Some true => true | _ => false end)
              (subtasks task))
      || existsb (fun subtask =>
           match rendererOptions subtask collapse with Some false => true | _ => false end)
         (subtasks task)
      || existsb hasFailed (subtasks task)
      || existsb hasRolledBack (subtasks task)).

(** "after task is finished actions". *)
Definition afterTaskFinished (task : Task) (self : DefaultRenderer) : DefaultRenderer :=
  if isCompleted task || hasFailed task || isSkipped task || hasRolledBack task then
    let self1 := setPromptBar None self in
    if negb (hasPersistentOutput task)
    then setBottomBar (barDelete (id task) (bottomBar self1)) self1
    else self1
  else self.

(** The [for ... of tasks] loop, collecting what each iteration adds to
    [output]. *)
Definition forEachTask
  (body : Task -> DefaultRenderer -> Result (list (option jsstring) * DefaultRenderer))
  : list Task -> DefaultRenderer -> Result (list (option jsstring) * DefaultRenderer) :=
  fix loop (tasks : list Task) (self : DefaultRenderer) :=
    match tasks with
    | [] => Ok ([], self)
    | task :: rest =>
        '(lines, self1) <- body task self ;;
        '(lines', self2) <- loop rest self1 ;;
        Ok (lines ++ lines', self2)
    end.

(** [output.filter(Boolean)], then the joined lines or [undefined]. *)
Definition joinOutput (output : list (option jsstring)) : option jsstring :=
  match filterDefined output with
  | [] => None
  | lines => Some (join EOL lines)
  end.

(** One iteration of the loop of [multiLineRenderer] on [task], a member
    of the list [tasks] rendered at [level]. *)
Fixpoint renderTask (tasks : list Task) (level : Z) (task : Task)
  (self : DefaultRenderer) {struct task}
  : Result (list (option jsstring) * DefaultRenderer) :=
  if isEnabled task then
    titleLines <- currentTaskTitle self tasks task level ;;
    messageLines <- currentTaskMessages self task level ;;
    '(outputLines, self1) <- currentTaskOutput self task level ;;
    '(subtaskLines, self2) <-
      (if shouldRenderSubtasks self1 task then
         let subtaskLevel := if negb (hasTitle task) then level else level + 1 in
         '(lines, self2) <-
           forEachTask (renderTask (subtasks task) subtaskLevel) (subtasks task) self1 ;;
         let subtaskRender := joinOutput lines in
         if match subtaskRender with
            | Some r => negb (isEmpty (trim r))
            | None => true
            end
            && negb (forallb (fun subtask => negb (hasTitle subtask)) (subtasks task))
         then Ok ([subtaskRender], self2)
         else Ok ([], self2)
       else Ok ([], self1)) ;;
    Ok (titleLines ++ messageLines ++ outputLines ++ subtaskLines,
        afterTaskFinished task self2)
  else Ok ([], self).

Definition multiLineRenderer (tasks : list Task) (level : Z) (self : DefaultRenderer)
  : Result (option jsstring * DefaultRenderer) :=
  '(lines, self') <- forEachTask (renderTask tasks level) tasks self ;;
  Ok (joinOutput lines, self').

Definition renderBottomBar (self : DefaultRenderer) : option jsstring * DefaultRenderer :=
  match bottomBar self with
  | [] => (None, self)
  | bar =>
      let bar' := map (fun '(key, entry) =>
                    (key, {| data := sliceLast (data entry) (items entry);
                             items := items entry |})) bar in
      (Some (join EOL (filterDefined (flat_map (fun '(_, entry) => data entry) bar'))),
       setBottomBar bar' self)
  end.

Definition renderPrompt (self : DefaultRenderer) : option jsstring :=
  if truthy (promptBar self) then promptBar self else None.

(** [s?.trim().length > 0]. *)
Definition nonBlank (s : option jsstring) : bool :=
  match s with
  | Some s' => negb (isEmpty (trim s'))
  | None => false
  end.

Definition text (s : option jsstring) : jsstring :=
  match s with Some s' => s' | None => [] end.

Definition createRender (tasks : list Task) (opts : CreateRenderOptions)
  (self : DefaultRenderer) : Result (jsstring * DefaultRenderer) :=
  '(renderTasks, self1) <- multiLineRenderer tasks 0 self ;;
  let '(renderedBottomBar, self2) := renderBottomBar self1 in
  let renderedPrompt := renderPrompt self2 in
  let render := if withTasks opts && nonBlank renderTasks then [text renderTasks] else [] in
  let render := if withBottomBar opts && nonBlank renderedBottomBar
                then render ++ [(if isEmpty render then [] else EOL) ++ text renderedBottomBar]
                else render in
  let render := if withPrompt opts && nonBlank renderedPrompt
                then render ++ [(if isEmpty render then [] else EOL) ++ text renderedPrompt]
                else render in
  Ok (join EOL render, self2).

(** *** The timer of [render] and the last write of [end] *)

Definition setSpinnerPosition (n : nat) (self : DefaultRenderer) : DefaultRenderer :=
  {| options := options self; bottomBar := bottomBar self; promptBar := promptBar self;
     spinner := spinner self; spinnerPosition := n |}.

(** The callback [render] gives to [setInterval]: the spinner moves on by
    one frame, then the frame is drawn.  The two spinners of the source are
    not empty; [%] by an empty one is not covered. *)
Definition tick (tasks : list Task) (self : DefaultRenderer)
  : Result (jsstring * DefaultRenderer) :=
  createRender tasks createRender_default
    (setSpinnerPosition (Nat.modulo (S (spinnerPosition self)) (length (spinner self)))
       self).

(** What [end] writes to [process.stdout]: nothing when [clearOutput] is
    set, else the frame without the prompt, and [EOL]. *)
Definition endWrite (tasks : list Task) (self : DefaultRenderer)
  : Result (option jsstring) :=
  if flag (options self) clearOutput then Ok None
  else
    '(frame, _) <- createRender tasks
                     {| withTasks := true; withBottomBar := true; withPrompt := false |}
                     self ;;
    Ok (Some (frame ++ EOL)).

(** *** Notions the further results speak about *)

(** The ids of a task and of the tasks below it. *)
Fixpoint taskIds (task : Task) : list String.string :=
  id task :: flat_map taskIds (subtasks task).

(** Two renderers with the same options and the same spinner at the same
    frame: they differ in the bottom bar and the prompt bar at most. *)
Definition sameSettings (a b : DefaultRenderer) : Prop :=
  options a = options b /\ spinner a = spinner b
  /\ spinnerPosition a = spinnerPosition b.

(** A region of the frame: the text when it is selected and not blank. *)
Definition shown (selected : bool) (region : option jsstring) : list jsstring :=
  if selected && nonBlank region then [text region] else [].

(** The latest [n] elements of a list. *)
Definition lastn {A} (n : nat) (l : list A) : list A := skipn (length l - n) l.

(** *** Shapes of text the layout results speak about *)

(** No code unit of [s] ends a line. *)
Definition singleLine (s : jsstring) : Prop :=
  Forall (fun c => isLineTerminator c = false) s.

(** The only line terminator in [s] is LF, the one [EOL] is made of. *)
Definition onlyLF (s : jsstring) : Prop :=
  Forall (fun c => isLineTerminator c = true -> c = 10%N) s.

Definition noLF (s : jsstring) : Prop := Forall (fun c => c <> 10%N) s.

(** The title line of [task], rendered in the list [tasks] at [level], is
    [text] behind [icon]: the title block formats exactly that, and a pass
    over the task that returns has it as its first entry. *)
Definition titleLineIs (self : DefaultRenderer) (tasks : list Task) (level : Z)
  (task : Task) (text icon : jsstring) : Prop :=
  currentTaskTitle self tasks task level
  = (l <- formatString self text icon level ;; Ok [l])
  /\ forall lines self',
       renderTask tasks level task self = Ok (lines, self') ->
       exists l rest, formatString self text icon level = Ok l /\ lines = l :: rest.

(** The lines a task has in the bottom bar. *)
Definition bottomBarData (self : DefaultRenderer) (task : Task)
  : list (option jsstring) :=
  match barGet (id task) (bottomBar self) with
  | Some entry => data entry
  | None => []
  end.

(** [count] spaces, what [indentString] puts in front of a line. *)
Definition spaces (count : Z) : jsstring := repeat 32%N (Z.to_nat count).

(* ================================================================ *)
(** ** Strings: helper lemmas *)

Lemma str_eqb_refl (s : jsstring) : str_eqb s s = true.
Proof.
  induction s as [|c s IH]; simpl; [reflexivity|].
  now rewrite N.eqb_refl, IH.
Qed.

Lemma str_eqb_eq (a b : jsstring) : str_eqb a b = true <-> a = b.
Proof.
  split; [|intros ->; apply str_eqb_refl].
  revert b; induction a as [|x a IH]; intros [|y b]; simpl; try easy.
  rewrite andb_true_iff, N.eqb_eq. intros [-> H]. now rewrite (IH _ H).
Qed.

Lemma value_eqb_eq (a b : option jsstring) : value_eqb a b = true <-> a = b.
Proof.
  destruct a as [a|], b as [b|]; simpl; try easy.
  rewrite str_eqb_eq. split; [now intros ->|now intros [= ->]].
Qed.

Lemma includes_In (l : list (option jsstring)) (x : option jsstring) :
  includes l x = true <-> In x l.
Proof.
  unfold includes. rewrite existsb_exists. split.
  - intros [y [Hy E]]. apply value_eqb_eq in E. now subst.
  - intros H. exists x. split; [assumption|]. now apply value_eqb_eq.
Qed.

Lemma isEmpty_true {A} (l : list A) : isEmpty l = true <-> l = [].
Proof. destruct l; simpl; split; easy. Qed.

Lemma isEmpty_false {A} (l : list A) : isEmpty l = false <-> l <> [].
Proof. destruct l; simpl; split; easy. Qed.

Lemma trimStart_length (s : jsstring) : (length (trimStart s) <= length s)%nat.
Proof.
  induction s as [|c s IH]; simpl; [lia|].
  destruct (isWhiteSpace c); simpl; lia.
Qed.

Lemma trim_length (s : jsstring) : (length (trim s) <= length s)%nat.
Proof.
  unfold trim, trimEnd. rewrite length_rev.
  etransitivity; [apply trimStart_length|]. rewrite length_rev.
  apply trimStart_length.
Qed.

Lemma trimStart_Forall (P : char -> Prop) (s : jsstring) :
  Forall P s -> Forall P (trimStart s).
Proof.
  induction 1 as [|c s Hc Hs IH]; simpl; [constructor|].
  destruct (isWhiteSpace c); [assumption|now constructor].
Qed.

Lemma trim_Forall (P : char -> Prop) (s : jsstring) :
  Forall P s -> Forall P (trim s).
Proof.
  intros H. unfold trim, trimEnd.
  apply Forall_rev, trimStart_Forall, Forall_rev, trimStart_Forall, H.
Qed.

(** The first code unit of a trimmed string is not white space. *)
Lemma trimStart_head (s : jsstring) :
  match trimStart s with
  | c :: _ => isWhiteSpace c = false
  | [] => True
  end.
Proof.
  induction s as [|c s IH]; simpl; [exact I|].
  destruct (isWhiteSpace c) eqn:E; [exact IH|exact E].
Qed.

Lemma trimStart_fixed (s : jsstring) :
  match s with c :: _ => isWhiteSpace c = false | [] => True end ->
  trimStart s = s.
Proof. destruct s as [|c s]; simpl; [easy|]. now intros ->. Qed.

Lemma trim_head (s : jsstring) :
  match trim s with
  | c :: _ => isWhiteSpace c = false
  | [] => True
  end.
Proof.
  unfold trim, trimEnd.
  pose proof (trimStart_head s) as H.
  set (t := trimStart s) in *. clearbody t.
  destruct (trimStart (rev t)) as [|d r] eqn:E; simpl; [exact I|].
  (* rev (d :: r) is a prefix of t up to the trailing white space *)
  assert (Hsuf : exists p, rev t = p ++ d :: r).
  { clear H. revert E. generalize (rev t). intros u.
    induction u as [|c u IH]; simpl; [discriminate|].
    destruct (isWhiteSpace c).
    - intros E. destruct (IH E) as [p Hp]. exists (c :: p). simpl. now rewrite Hp.
    - intros [= -> ->]. now exists []. }
  destruct Hsuf as [p Hp].
  assert (Ht : t = rev r ++ d :: rev p).
  { rewrite <- (rev_involutive t), Hp, rev_app_distr. simpl.
    now rewrite <- app_assoc. }
  destruct (rev r) as [|c0 r0] eqn:Er; simpl.
  - rewrite Ht in H. exact H.
  - rewrite Ht in H. exact H.
Qed.

Lemma split_nonempty (s : jsstring) : split s <> [].
Proof.
  unfold split. induction s as [|c s IH]; simpl; [easy|].
  destruct (N.eqb c 10); [easy|]. now destruct (splitOn 10%N s).
Qed.

Lemma split_noLF (s : jsstring) : noLF s -> split s = [s].
Proof.
  unfold split. induction 1 as [|c s Hc Hs IH]; simpl; [reflexivity|].
  apply N.eqb_neq in Hc. now rewrite Hc, IH.
Qed.

Lemma split_app_noLF (a s : jsstring) :
  noLF a ->
  split (a ++ s) = (a ++ hd [] (split s)) :: tl (split s).
Proof.
  unfold split. induction 1 as [|c a Hc Ha IH]; simpl.
  - pose proof (split_nonempty s) as H. unfold split in H.
    now destruct (splitOn 10%N s).
  - apply N.eqb_neq in Hc. now rewrite Hc, IH.
Qed.

Lemma split_parts_noLF (s : jsstring) : Forall noLF (split s).
Proof.
  unfold split. induction s as [|c s IH]; simpl.
  - repeat constructor.
  - destruct (N.eqb c 10) eqn:E.
    + constructor; [constructor|exact IH].
    + destruct (splitOn 10%N s) as [|l ls]; [repeat constructor; now apply N.eqb_neq|].
      inversion IH; subst. constructor; [|assumption].
      constructor; [now apply N.eqb_neq|assumption].
Qed.

Lemma split_Forall (P : char -> Prop) (s : jsstring) :
  Forall P s -> Forall (Forall P) (split s).
Proof.
  unfold split. induction 1 as [|c s Hc Hs IH]; simpl.
  - repeat constructor.
  - destruct (N.eqb c 10).
    + constructor; [constructor|exact IH].
    + destruct (splitOn 10%N s) as [|l ls]; [repeat constructor; assumption|].
      inversion IH; subst. constructor; [|assumption]. now constructor.
Qed.

Lemma split_join (ls : list jsstring) :
  ls <> [] -> Forall noLF ls -> split (join EOL ls) = ls.
Proof.
  induction ls as [|l ls IH]; [easy|]. intros _ H.
  inversion H as [|? ? Hl Hls]; subst.
  destruct ls as [|l' ls'].
  - simpl. now apply split_noLF.
  - change (join EOL (l :: l' :: ls')) with (l ++ EOL ++ join EOL (l' :: ls')).
    rewrite split_app_noLF by assumption.
    change (EOL ++ join EOL (l' :: ls')) with (10%N :: join EOL (l' :: ls')).
    change (split (10%N :: join EOL (l' :: ls')))
      with ([] :: split (join EOL (l' :: ls'))).
    simpl hd. simpl tl. rewrite app_nil_r. f_equal. now apply IH.
Qed.

Lemma join_Forall (P : char -> Prop) (ls : list jsstring) :
  P 10%N -> Forall (Forall P) ls -> Forall P (join EOL ls).
Proof.
  intros HP. induction 1 as [|l ls Hl Hls IH]; [constructor|].
  destruct ls as [|l' ls']; [exact Hl|].
  change (join EOL (l :: l' :: ls')) with (l ++ 10%N :: join EOL (l' :: ls')).
  apply Forall_app. split; [assumption|]. now constructor.
Qed.

Lemma singleLine_noLF (s : jsstring) : singleLine s -> noLF s.
Proof.
  apply Forall_impl. intros c H ->. discriminate.
Qed.

Lemma singleLine_onlyLF (s : jsstring) : singleLine s -> onlyLF s.
Proof.
  apply Forall_impl. intros c H H'. congruence.
Qed.

Lemma spaces_length (count : Z) : 0 <= count -> stringWidth (spaces count) = count.
Proof.
  intros H. unfold stringWidth, spaces. rewrite repeat_length. lia.
Qed.

Lemma spaces_noLF (count : Z) : noLF (spaces count).
Proof.
  unfold spaces. induction (Z.to_nat count); simpl; constructor; easy.
Qed.

(** *** [indentString] line by line *)

Lemma indentFrom_singleLine (indent s : jsstring) :
  singleLine s -> indentFrom indent false s = s.
Proof.
  induction 1 as [|c s Hc Hs IH]; simpl; [reflexivity|].
  now rewrite Hc, IH.
Qed.

Lemma indentFrom_first (indent : jsstring) (c : char) (s : jsstring) :
  isWhiteSpace c = false -> singleLine (c :: s) ->
  indentFrom indent true (c :: s) = indent ++ c :: s.
Proof.
  intros Hw H. inversion H as [|? ? Hc Hs]; subst.
  cbn [indentFrom lineBlank]. rewrite Hc, Hw. simpl.
  now rewrite indentFrom_singleLine.
Qed.

(** Every line of the indented text is a line of the text, as it was or
    behind the indent; the first one is as it was when the text does not
    start a line. *)
Lemma indentFrom_lines (indent : jsstring) (s : jsstring) :
  noLF indent -> onlyLF s ->
  forall atStart : bool,
  exists l0' ls',
    split (indentFrom indent atStart s) = l0' :: ls'
    /\ (l0' = hd [] (split s) \/ (atStart = true /\ l0' = indent ++ hd [] (split s)))
    /\ Forall2 (fun l l' => l' = l \/ l' = indent ++ l) (tl (split s)) ls'.
Proof.
  intros Hind. induction 1 as [|c s Hc Hs IH]; intros atStart.
  - exists [], []. simpl. repeat split; auto.
  - cbn [indentFrom].
    set (pre := if (atStart && negb (lineBlank (c :: s)))%bool then indent else []).
    assert (Hpre : noLF pre) by (subst pre; destruct (_ && _)%bool; [assumption|constructor]).
    assert (Hpre' : pre = [] \/ (atStart = true /\ pre = indent)).
    { subst pre. destruct atStart; simpl; [|now left].
      destruct (negb _); [right; now split|now left]. }
    destruct (IH (isLineTerminator c)) as [m0 [ms [E [H0 Hrest]]]].
    rewrite split_app_noLF by assumption.
    destruct (N.eqb_spec c 10) as [->|Hne].
    + change (split (10%N :: indentFrom indent (isLineTerminator 10%N) s))
        with ([] :: split (indentFrom indent (isLineTerminator 10%N) s)).
      change (split (10%N :: s)) with ([] :: split s).
      rewrite E. simpl hd. simpl tl. rewrite app_nil_r.
      exists pre, (m0 :: ms). split; [reflexivity|]. split.
      * destruct Hpre' as [->|[-> ->]]; [now left|right; now rewrite app_nil_r].
      * pose proof (split_nonempty s) as Hn.
        destruct (split s) as [|l0 ls]; [easy|]. simpl in H0.
        constructor; [|exact Hrest].
        destruct H0 as [->|[_ ->]]; [now left|now right].
    + assert (Hlt : isLineTerminator c = false).
      { destruct (isLineTerminator c) eqn:El; [|reflexivity]. now specialize (Hc eq_refl). }
      rewrite Hlt in *.
      assert (Es : forall t, split (c :: t) = (c :: hd [] (split t)) :: tl (split t)).
      { intros t. pose proof (split_nonempty t) as Hn. unfold split in *. simpl.
        apply N.eqb_neq in Hne. rewrite Hne. now destruct (splitOn 10%N t). }
      rewrite !Es, E. simpl hd. simpl tl.
      destruct H0 as [->|[Hf _]]; [|discriminate].
      exists (pre ++ c :: hd [] (split s)), ms. split; [reflexivity|]. split.
      * destruct Hpre' as [->|[-> ->]]; [now left|right; now split].
      * exact Hrest.
Qed.

Lemma indentString_lines (s : jsstring) (count W : Z) :
  0 <= count -> onlyLF s ->
  Forall (fun l => stringWidth l <= W) (split s) ->
  exists out, indentString s count = Ok out
    /\ Forall (fun l => stringWidth l <= W + count) (split out).
Proof.
  intros Hc Hs HW. unfold indentString.
  destruct (count <? 0) eqn:E1; [lia|].
  destruct (count =? 0) eqn:E2.
  - exists s. split; [reflexivity|]. apply Z.eqb_eq in E2. subst.
    now rewrite Z.add_0_r.
  - eexists. split; [reflexivity|].
    destruct (indentFrom_lines (spaces count) s (spaces_noLF count) Hs true)
      as [l0' [ls' [E [H0 Hrest]]]].
    fold (spaces count). rewrite E.
    pose proof (split_nonempty s) as Hn.
    destruct (split s) as [|l0 ls]; [easy|]. simpl in H0, Hrest.
    inversion HW as [|? ? Hl0 Hls]; subst.
    assert (Hw : forall l l', stringWidth l <= W ->
                 l' = l \/ l' = spaces count ++ l -> stringWidth l' <= W + count).
    { intros l l' Hl [-> | ->]; [lia|].
      unfold stringWidth in *. rewrite length_app.
      pose proof (spaces_length count Hc) as Hsp. unfold stringWidth in Hsp. lia. }
    constructor.
    + apply (Hw l0); [assumption|]. destruct H0 as [->|[_ ->]]; auto.
    + clear - Hls Hrest Hw. revert Hls. induction Hrest; intros Hls; constructor.
      * inversion Hls; subst. eapply Hw; eauto.
      * inversion Hls; subst. auto.
Qed.

(** *** [map] with an index and a callback that does not throw *)

Lemma mapi_from_Ok {A B} (f : A -> nat -> Result B) (Q : B -> Prop) (l : list A) :
  forall i,
  (forall a j, In a l -> exists b, f a j = Ok b /\ Q b) ->
  exists bs, mapi_from f i l = Ok bs /\ Forall Q bs /\ length bs = length l.
Proof.
  induction l as [|a l IH]; intros i H; simpl.
  - exists []. repeat split; constructor.
  - destruct (H a i (or_introl eq_refl)) as [b [Eb Qb]]. rewrite Eb. simpl.
    destruct (IH (S i)) as [bs [Ebs [Qbs Hlen]]].
    { intros a' j Ha'. apply H. now right. }
    rewrite Ebs. simpl. exists (b :: bs). repeat split; [now constructor|simpl; lia].
Qed.

(* ================================================================ *)
(** ** [formatString] *)

Lemma trimStart_nil_iff (s : jsstring) :
  trimStart s = [] <-> forallb isWhiteSpace s = true.
Proof.
  induction s as [|c s IH]; simpl; [easy|].
  destruct (isWhiteSpace c); simpl; [exact IH|easy].
Qed.

Lemma trim_nil_iff (s : jsstring) : trim s = [] <-> forallb isWhiteSpace s = true.
Proof.
  unfold trim, trimEnd. rewrite <- trimStart_nil_iff. split.
  - intros H. apply (f_equal (@rev char)) in H. rewrite rev_involutive in H.
    simpl in H. apply trimStart_nil_iff in H. rewrite forallb_forall in H.
    pose proof (trimStart_head s) as Hh.
    destruct (trimStart s) as [|c t]; [reflexivity|].
    specialize (H c). rewrite <- in_rev in H. specialize (H (or_introl eq_refl)).
    congruence.
  - intros ->. reflexivity.
Qed.

Lemma trim_app_nonblank (a s : jsstring) : trim s <> [] -> trim (a ++ s) <> [].
Proof.
  rewrite !trim_nil_iff, forallb_app, andb_true_iff. intros H [_ H']. exact (H H').
Qed.

Lemma indentMultilineOutput_Ok (s : jsstring) (i : nat) :
  exists r, indentMultilineOutput s i = Ok r.
Proof.
  unfold indentMultilineOutput. destruct (0 <? i)%nat; eexists; reflexivity.
Qed.

Lemma indentString_Ok (s : jsstring) (count : Z) :
  0 <= count -> exists r, indentString s count = Ok r.
Proof.
  intros H. unfold indentString. destruct (count <? 0) eqn:E; [lia|].
  destruct (count =? 0); eexists; reflexivity.
Qed.

(** With one of the two declared formats and a non-negative indent,
    [formatString] returns. *)
Lemma formatString_returns (self : DefaultRenderer) (str icon : jsstring) (level : Z) :
  formatOutput (options self) = truncate \/ formatOutput (options self) = wrap ->
  0 <= level * indentation (options self) ->
  exists r, formatString self str icon level = Ok r.
Proof.
  intros Hf Hind. unfold formatString.
  destruct (isEmpty (trim str)); [now eexists|].
  set (line := icon ++ lit " " ++ str).
  assert (Hp : exists parsed,
    match formatOutput (options self) with
    | truncate =>
        mapi (fun s i => s' <- indentMultilineOutput s i ;;
                         Ok (cliTruncate s' (availableColumns self level))) (split line)
    | wrap => mapi (fun s i => indentMultilineOutput s i)
                (split (cliWrap line (availableColumns self level)))
    | otherFormat _ => Throw (JsError "Format option for the renderer is wrong.")
    end = Ok parsed).
  { destruct Hf as [-> | ->]; unfold mapi.
    - destruct (mapi_from_Ok
                  (fun s i => s' <- indentMultilineOutput s i ;;
                              Ok (cliTruncate s' (availableColumns self level)))
                  (fun _ => True) (split line) 0%nat) as [bs [E _]]; [|eauto].
      intros a j _. destruct (indentMultilineOutput_Ok a j) as [r ->]. simpl. eauto.
    - destruct (mapi_from_Ok (fun s i => indentMultilineOutput s i)
                  (fun _ => True)
                  (split (cliWrap line (availableColumns self level))) 0%nat)
        as [bs [E _]]; [|eauto].
      intros a j _. destruct (indentMultilineOutput_Ok a j) as [r ->]. eauto. }
  destruct Hp as [parsed ->]. simpl.
  match goal with
  | |- context [indentString ?x ?c] => destruct (indentString_Ok x c Hind) as [r ->]
  end.
  simpl. eauto.
Qed.

Lemma formatString_unknown_format (self : DefaultRenderer) (str icon : jsstring)
  (level : Z) (v : String.string) :
  trim str <> [] -> formatOutput (options self) = otherFormat v ->
  formatString self str icon level
  = Throw (JsError "Format option for the renderer is wrong.").
Proof.
  intros Hb Hf. unfold formatString. apply isEmpty_false in Hb.
  rewrite Hb, Hf. reflexivity.
Qed.

(** C9. A string whose trimmed content is empty produces no line:
    [formatString] returns nothing whatever the icon, the level and the
    options are; in particular the error of an unknown [formatOutput] is
    not raised for it. *)
Theorem formatString_blank (self : DefaultRenderer) (str icon : jsstring) (level : Z) :
  trim str = [] -> formatString self str icon level = Ok None.
Proof.
  intros H. unfold formatString. now rewrite H.
Qed.

(** C5 (amended). At a non-negative level and indentation, for a string
    that is not blank [formatString] throws exactly when [formatOutput]
    is neither ['truncate'] nor ['wrap']; for a blank string it never
    throws. *)
Theorem formatString_throws_iff (self : DefaultRenderer) (str icon : jsstring)
  (level : Z) :
  0 <= level -> 0 <= indentation (options self) ->
  (trim str <> [] ->
     (throws (formatString self str icon level) = true
      <-> formatOutput (options self) <> truncate
          /\ formatOutput (options self) <> wrap))
  /\ (trim str = [] -> throws (formatString self str icon level) = false).
Proof.
  intros Hl Hi. split.
  - intros Hb. destruct (formatOutput (options self)) as [| |v] eqn:Hf.
    + destruct (formatString_returns self str icon level) as [r E]; [auto|nia|].
      rewrite E. simpl. split; [discriminate|]. intros [H _]. now elim H.
    + destruct (formatString_returns self str icon level) as [r E]; [auto|nia|].
      rewrite E. simpl. split; [discriminate|]. intros [_ H]. now elim H.
    + rewrite (formatString_unknown_format self str icon level v Hb Hf). simpl.
      split; [split; discriminate|reflexivity].
  - intros Hb. unfold formatString. now rewrite Hb.
Qed.

(** *** Truncation of a single line *)

Lemma formatString_truncate_parsed (self : DefaultRenderer) (str icon : jsstring)
  (level : Z) :
  formatOutput (options self) = truncate ->
  trim str <> [] ->
  singleLine (icon ++ lit " " ++ str) ->
  formatString self str icon level
  = (let t := cliTruncate (trim (icon ++ lit " " ++ str)) (availableColumns self level) in
     r <- indentString
            (join EOL (if flag (options self) removeEmptyLines
                       then filterBoolean [t] else [t]))
            (level * indentation (options self)) ;;
     Ok (Some r)).
Proof.
  intros Hf Hb Hs. unfold formatString. apply isEmpty_false in Hb. rewrite Hb, Hf.
  rewrite (split_noLF _ (singleLine_noLF _ Hs)). reflexivity.
Qed.

Lemma firstn_all (P : char -> Prop) (n : nat) (s : jsstring) :
  Forall P s -> Forall P (firstn n s).
Proof.
  intros H. revert n. induction H as [|c s Hc Hs IH]; intros [|n]; simpl;
    constructor; auto.
Qed.

Lemma join_single (removeEmpty : bool) (t : jsstring) :
  t <> [] ->
  join EOL (if removeEmpty then filterBoolean [t] else [t]) = t.
Proof.
  intros H. destruct removeEmpty; [|reflexivity]. destruct t; [easy|reflexivity].
Qed.

Lemma indentString_line (t : jsstring) (count : Z) :
  0 <= count -> singleLine t ->
  match t with c :: _ => isWhiteSpace c = false | [] => False end ->
  indentString t count = Ok (spaces count ++ t).
Proof.
  intros Hc Hs Hh. unfold indentString, spaces.
  destruct (count <? 0) eqn:E1; [lia|].
  destruct (count =? 0) eqn:E2.
  - apply Z.eqb_eq in E2. now subst.
  - destruct t as [|c t]; [easy|]. now rewrite indentFrom_first.
Qed.

Lemma formatString_short (self : DefaultRenderer) (str icon : jsstring) (level : Z) :
  formatOutput (options self) = truncate ->
  trim str <> [] ->
  singleLine (icon ++ lit " " ++ str) ->
  0 <= level * indentation (options self) ->
  stringWidth (trim (icon ++ lit " " ++ str)) < availableColumns self level ->
  formatString self str icon level
  = Ok (Some (spaces (level * indentation (options self))
              ++ trim (icon ++ lit " " ++ str))).
Proof.
  intros Hf Hb Hs Hind Hw.
  rewrite formatString_truncate_parsed by assumption.
  set (line := trim (icon ++ lit " " ++ str)) in *.
  assert (Hne : line <> []).
  { subst line. rewrite app_assoc. now apply trim_app_nonblank. }
  assert (Hh := trim_head (icon ++ lit " " ++ str)). fold line in Hh.
  assert (Hsl : singleLine line) by (apply trim_Forall; exact Hs).
  assert (1 <= stringWidth line).
  { unfold stringWidth. destruct line; [easy|simpl; lia]. }
  assert (Ht : cliTruncate line (availableColumns self level) = line).
  { unfold cliTruncate.
    destruct (availableColumns self level <? 1) eqn:E1; [lia|].
    destruct (availableColumns self level =? 1) eqn:E2; [lia|].
    destruct (stringWidth line <=? availableColumns self level) eqn:E3; [easy|lia]. }
  cbv zeta. rewrite Ht, join_single by assumption.
  rewrite indentString_line; auto.
  destruct line; [easy|exact Hh].
Qed.

Lemma formatString_long (self : DefaultRenderer) (str icon : jsstring) (level : Z) :
  formatOutput (options self) = truncate ->
  trim str <> [] ->
  singleLine (icon ++ lit " " ++ str) ->
  0 <= level * indentation (options self) ->
  availableColumns self level < stringWidth (trim (icon ++ lit " " ++ str)) ->
  1 <= availableColumns self level ->
  exists t,
    formatString self str icon level
    = Ok (Some (spaces (level * indentation (options self)) ++ t))
    /\ stringWidth t = availableColumns self level
    /\ t = firstn (Z.to_nat (availableColumns self level - 1))
                  (trim (icon ++ lit " " ++ str)) ++ ellipsis.
Proof.
  intros Hf Hb Hs Hind Hw Ha.
  rewrite formatString_truncate_parsed by assumption.
  set (line := trim (icon ++ lit " " ++ str)) in *.
  set (avail := availableColumns self level) in *.
  assert (Hh := trim_head (icon ++ lit " " ++ str)). fold line in Hh.
  assert (Hsl : singleLine line) by (apply trim_Forall; exact Hs).
  exists (firstn (Z.to_nat (avail - 1)) line ++ ellipsis).
  assert (Ht : cliTruncate line avail = firstn (Z.to_nat (avail - 1)) line ++ ellipsis).
  { unfold cliTruncate. destruct (avail <? 1) eqn:E1; [lia|].
    destruct (avail =? 1) eqn:E2.
    - apply Z.eqb_eq in E2. now rewrite E2.
    - destruct (stringWidth line <=? avail) eqn:E3; [lia|reflexivity]. }
  cbv zeta. rewrite Ht.
  set (t := firstn (Z.to_nat (avail - 1)) line ++ ellipsis).
  assert (Hlen : stringWidth t = avail).
  { subst t. unfold stringWidth in *. rewrite length_app, length_firstn. simpl. lia. }
  assert (Hts : singleLine t).
  { subst t. apply Forall_app. split.
    - now apply firstn_all.
    - repeat constructor. }
  assert (Hth : match t with c :: _ => isWhiteSpace c = false | [] => False end).
  { subst t. destruct (Z.to_nat (avail - 1)); [reflexivity|].
    destruct line as [|c line']; [reflexivity|exact Hh]. }
  rewrite join_single, indentString_line; auto.
  intros ->. exact Hth.
Qed.

(** *** Wrapping *)

Lemma indentMultilineOutput_piece (p : jsstring) (i : nat) (W : Z) :
  singleLine p -> stringWidth p <= W ->
  exists b, indentMultilineOutput p i = Ok b
    /\ singleLine b /\ stringWidth b <= W + 2.
Proof.
  intros Hs Hw. unfold indentMultilineOutput.
  pose proof (trim_length p) as Hl.
  pose proof (trim_Forall _ _ Hs) as Ht. fold (singleLine (trim p)) in Ht.
  pose proof (trim_head p) as Hh.
  destruct (0 <? i)%nat.
  - destruct (trim p) as [|c t] eqn:E.
    + exists []. repeat split; [constructor|unfold stringWidth in *; simpl in *; lia].
    + rewrite (indentString_line (c :: t) 2); [|lia|assumption|assumption].
      eexists. split; [reflexivity|]. split.
      * apply Forall_app. split; [repeat constructor|assumption].
      * unfold stringWidth in *. rewrite length_app. simpl in *. lia.
  - exists (trim p). repeat split; [assumption|unfold stringWidth in *; lia].
Qed.

Lemma formatString_wrapped (self : DefaultRenderer) (str icon : jsstring) (level : Z) :
  formatOutput (options self) = wrap ->
  trim str <> [] ->
  0 <= level * indentation (options self) ->
  onlyLF (cliWrap (icon ++ lit " " ++ str) (availableColumns self level)) ->
  Forall (fun l => stringWidth l <= availableColumns self level)
         (split (cliWrap (icon ++ lit " " ++ str) (availableColumns self level))) ->
  exists out,
    formatString self str icon level = Ok (Some out)
    /\ Forall (fun l => stringWidth l <= terminalColumns) (split out).
Proof.
  intros Hf Hb Hind Hlf Hw. unfold formatString.
  apply isEmpty_false in Hb. rewrite Hb, Hf.
  set (avail := availableColumns self level) in *.
  set (wrapped := cliWrap (icon ++ lit " " ++ str) avail) in *.
  assert (Havail : 0 <= avail).
  { pose proof (split_nonempty wrapped) as Hn.
    destruct (split wrapped) as [|l ls]; [easy|].
    inversion Hw; subst. unfold stringWidth in *. lia. }
  assert (Hpieces : Forall (fun p => singleLine p /\ stringWidth p <= avail)
                           (split wrapped)).
  { pose proof (split_parts_noLF wrapped) as H1.
    pose proof (split_Forall _ _ Hlf) as H2.
    rewrite Forall_forall in *. intros p Hp. split; [|auto].
    specialize (H1 p Hp). specialize (H2 p Hp).
    unfold singleLine, noLF in *. rewrite Forall_forall in *. intros c Hc.
    destruct (isLineTerminator c) eqn:E; [|reflexivity].
    elim (H1 c Hc). now apply H2. }
  destruct (mapi_from_Ok (fun s i => indentMultilineOutput s i)
              (fun b => singleLine b /\ stringWidth b <= avail + 2)
              (split wrapped) 0%nat) as [parsed [E [HQ _]]].
  { intros a j Ha. rewrite Forall_forall in Hpieces.
    destruct (Hpieces a Ha) as [H1 H2].
    destruct (indentMultilineOutput_piece a j avail H1 H2) as [b [Eb [Hb1 Hb2]]].
    eauto. }
  unfold mapi. rewrite E. cbn [bind].
  set (parsed' := if flag (options self) removeEmptyLines
                  then filterBoolean parsed else parsed).
  assert (HQ' : Forall (fun b => singleLine b /\ stringWidth b <= avail + 2) parsed').
  { subst parsed'. destruct (flag _ _); [|assumption].
    unfold filterBoolean. rewrite Forall_forall in *. intros b Hb'.
    apply filter_In in Hb'. now apply HQ. }
  assert (Hjoin : onlyLF (join EOL parsed')).
  { apply join_Forall; [reflexivity|].
    eapply Forall_impl; [|exact HQ']. intros b [H _]. now apply singleLine_onlyLF. }
  assert (Hlines : Forall (fun l => stringWidth l <= avail + 2) (split (join EOL parsed'))).
  { destruct parsed' as [|b bs] eqn:Ep.
    - simpl. repeat constructor. unfold stringWidth. simpl. lia.
    - rewrite split_join; [| easy |].
      + eapply Forall_impl; [|exact HQ']. now intros ? [_ ?].
      + eapply Forall_impl; [|exact HQ']. intros ? [H _]. now apply singleLine_noLF. }
  destruct (indentString_lines _ _ _ Hind Hjoin Hlines) as [out [Eo Ho]].
  rewrite Eo. cbn [bind]. exists out. split; [reflexivity|].
  eapply Forall_impl; [|exact Ho]. intros l Hl.
  subst avail. unfold availableColumns in *. lia.
Qed.

Lemma isOneColumn_not_terminator (c : char) :
  isOneColumn c = true -> isLineTerminator c = false.
Proof.
  unfold isLineTerminator. intros H.
  destruct (N.eqb_spec c 10) as [->|_]; [discriminate H|].
  destruct (N.eqb_spec c 13) as [->|_]; [discriminate H|].
  destruct (N.eqb_spec c 8232) as [->|_]; [discriminate H|].
  destruct (N.eqb_spec c 8233) as [->|_]; [discriminate H|].
  reflexivity.
Qed.

Lemma oneColumn_singleLine (s : jsstring) : oneColumn s -> singleLine s.
Proof.
  unfold oneColumn. rewrite forallb_forall. intros H.
  apply Forall_forall. intros c Hc. now apply isOneColumn_not_terminator, H.
Qed.

Lemma oneColumnLines_onlyLF (s : jsstring) : oneColumnLines s -> onlyLF s.
Proof.
  unfold oneColumnLines. rewrite forallb_forall. intros H.
  apply Forall_forall. intros c Hc Ht. specialize (H c Hc).
  apply orb_true_iff in H. destruct H as [H|H]; [|now apply N.eqb_eq].
  apply isOneColumn_not_terminator in H. congruence.
Qed.

(** C1 (amended). For a string that is not blank, of one-column characters
    as its icon is, at a level whose indent [level * indentation] is not
    negative:
    - with [formatOutput = 'truncate'], if the icon-prefixed string,
      trimmed, is shorter than the available width
      ([columns - level * indentation - 2]), [formatString] returns it,
      trimmed, behind the indent; if it is wider than the available width,
      which is at least 1, the text behind the indent is cut to exactly the
      available width and ends with an ellipsis;
    - with [formatOutput = 'wrap'], when the wrapped text is lines of
      one-column characters that keep within the available width, no line
      of the output is wider than the terminal: continuation lines are
      indented by 2 after the wrapping and every line by the indent of its
      level. *)
Theorem formatString_layout (self : DefaultRenderer) (str icon : jsstring) (level : Z) :
  trim str <> [] ->
  0 <= level * indentation (options self) ->
  let line := icon ++ lit " " ++ str in
  let avail := availableColumns self level in
  let indent := spaces (level * indentation (options self)) in
  (formatOutput (options self) = truncate -> oneColumn line ->
     (stringWidth (trim line) < avail ->
        formatString self str icon level = Ok (Some (indent ++ trim line)))
     /\ (avail < stringWidth (trim line) -> 1 <= avail ->
           exists t, formatString self str icon level = Ok (Some (indent ++ t))
                     /\ stringWidth t = avail
                     /\ oneColumn t
                     /\ t = firstn (Z.to_nat (avail - 1)) (trim line) ++ ellipsis))
  /\ (formatOutput (options self) = wrap ->
      oneColumnLines (cliWrap line avail) ->
      Forall (fun l => stringWidth l <= avail) (split (cliWrap line avail)) ->
      exists out, formatString self str icon level = Ok (Some out)
                  /\ Forall (fun l => stringWidth l <= terminalColumns) (split out)).
Proof.
  intros Hb Hind line avail indent. split.
  - intros Hf Hone. pose proof (oneColumn_singleLine _ Hone) as Hs. split.
    + intros Hw. now apply formatString_short.
    + intros Hw Ha.
      destruct (formatString_long self str icon level Hf Hb Hs Hind Hw Ha)
        as [t [E [Hlen Ht]]].
      exists t. repeat split; try assumption.
      subst t. unfold oneColumn in *. rewrite forallb_app. apply andb_true_iff.
      split; [|reflexivity].
      assert (HF : Forall (fun c => isOneColumn c = true) (icon ++ lit " " ++ str)).
      { apply Forall_forall. now apply forallb_forall. }
      apply forallb_forall, Forall_forall, firstn_all, trim_Forall, HF.
  - intros Hf Hlines Hw.
    apply formatString_wrapped; try assumption. now apply oneColumnLines_onlyLF.
Qed.

(* ================================================================ *)
(** ** One iteration of [multiLineRenderer] *)

Lemma bind_Ok {A B} (m : Result A) (k : A -> Result B) (b : B) :
  bind m k = Ok b -> exists a, m = Ok a /\ k a = Ok b.
Proof. destruct m as [a|e]; simpl; [eauto|discriminate]. Qed.

(** The body of the loop, with the recursion written as the call of
    [multiLineRenderer] on the subtasks that the source makes. *)
Lemma renderTask_eq (tasks : list Task) (level : Z) (task : Task)
  (self : DefaultRenderer) :
  renderTask tasks level task self
  = if isEnabled task then
      titleLines <- currentTaskTitle self tasks task level ;;
      messageLines <- currentTaskMessages self task level ;;
      '(outputLines, self1) <- currentTaskOutput self task level ;;
      if shouldRenderSubtasks self1 task then
        '(subtaskRender, self2) <-
          multiLineRenderer (subtasks task)
            (if negb (hasTitle task) then level else level + 1) self1 ;;
        Ok (titleLines ++ messageLines ++ outputLines
            ++ (if match subtaskRender with
                   | Some r => negb (isEmpty (trim r))
                   | None => true
                   end
                   && negb (forallb (fun subtask => negb (hasTitle subtask))
                              (subtasks task))
                then [subtaskRender] else []),
            afterTaskFinished task self2)
      else Ok (titleLines ++ messageLines ++ outputLines,
               afterTaskFinished task self1)
    else Ok ([], self).
Proof.
  destruct task as [i t st en pr out msg subs ro rto eoe].
  cbn [renderTask]. destruct en eqn:Een; unfold isEnabled; cbn [enabled]; [|reflexivity].
  destruct (currentTaskTitle _ _ _ _) as [titleLines|]; [|reflexivity]. cbn [bind].
  destruct (currentTaskMessages _ _ _) as [messageLines|]; [|reflexivity]. cbn [bind].
  destruct (currentTaskOutput _ _ _) as [[outputLines self1]|]; [|reflexivity].
  cbn [bind]. destruct (shouldRenderSubtasks self1 _); cbn [bind].
  - unfold multiLineRenderer. cbn [subtasks hasTitle title].
    destruct (forEachTask _ _ _) as [[lines self2]|]; [|reflexivity]. cbn [bind].
    destruct (_ && _); reflexivity.
  - now rewrite app_nil_r.
Qed.

Lemma renderTask_title_first (tasks : list Task) (level : Z) (task : Task)
  (self self' : DefaultRenderer) (lines : list (option jsstring)) :
  isEnabled task = true ->
  renderTask tasks level task self = Ok (lines, self') ->
  exists titleLines rest,
    currentTaskTitle self tasks task level = Ok titleLines
    /\ lines = titleLines ++ rest.
Proof.
  intros Hen H. rewrite renderTask_eq, Hen in H.
  apply bind_Ok in H. destruct H as [titleLines [Et H]].
  apply bind_Ok in H. destruct H as [messageLines [_ H]].
  apply bind_Ok in H. destruct H as [[outputLines self1] [_ H]].
  exists titleLines. destruct (shouldRenderSubtasks self1 task).
  - apply bind_Ok in H. destruct H as [[subtaskRender self2] [_ H]].
    injection H as <- _. eauto.
  - injection H as <- _. eauto.
Qed.

Lemma titleLineIs_intro (self : DefaultRenderer) (tasks : list Task) (level : Z)
  (task : Task) (text icon : jsstring) :
  isEnabled task = true ->
  currentTaskTitle self tasks task level
  = (l <- formatString self text icon level ;; Ok [l]) ->
  titleLineIs self tasks level task text icon.
Proof.
  intros Hen E. split; [exact E|]. intros lines self' H.
  destruct (renderTask_title_first _ _ _ _ _ _ Hen H) as [titleLines [rest [Et ->]]].
  rewrite E in Et. apply bind_Ok in Et. destruct Et as [l [El [= <-]]].
  exists l, rest. now split.
Qed.

Lemma currentTaskOutput_options (self self' : DefaultRenderer) (task : Task)
  (level : Z) (lines : list (option jsstring)) :
  currentTaskOutput self task level = Ok (lines, self') ->
  options self' = options self.
Proof.
  unfold currentTaskOutput. intros H.
  destruct (truthy (output task)); [|now injection H as _ <-].
  destruct (isActive task && isPrompt task); [now injection H as _ <-|].
  destruct (isBottomBar task || negb (hasTitle task)).
  - apply bind_Ok in H. destruct H as [l [_ H]]. now injection H as _ <-.
  - destruct (isActive task || hasPersistentOutput task).
    + apply bind_Ok in H. destruct H as [l [_ H]]. now injection H as _ <-.
    + now injection H as _ <-.
Qed.

Lemma shouldRenderSubtasks_options (self self' : DefaultRenderer) (task : Task) :
  options self' = options self ->
  shouldRenderSubtasks self' task = shouldRenderSubtasks self task.
Proof.
  intros H. unfold shouldRenderSubtasks, getSelfOrParentOption. now rewrite H.
Qed.

(** C8. For a task with a title, [dumpData] with source ['error'] returns
    nothing when the stored error text equals the title; so a failed task
    whose error text repeats its title gets no secondary error line, also
    when [collapseErrors] is off. *)
Theorem dumpData_error_repeats_title (self : DefaultRenderer) (task : Task)
  (level : Z) (t : jsstring) :
  title task = Some t -> error (message task) = Some t ->
  dumpData self task level srcError = Ok None
  /\ (hasFailed task = true ->
      exists lines, currentTaskMessages self task level = Ok lines
                    /\ filterDefined lines = []).
Proof.
  intros Ht He.
  assert (Hd : dumpData self task level srcError = Ok None).
  { unfold dumpData, hasTitle. rewrite Ht, He. simpl. now rewrite str_eqb_refl. }
  split; [exact Hd|]. intros Hf. unfold currentTaskMessages.
  assert (Hs : isSkipped task = false).
  { unfold hasFailed, isSkipped, inState in *. destruct (state task) as [[]|]; easy. }
  rewrite Hf, Hs, Hd. simpl.
  destruct (negb (hasSubtasks task) || negb (getSelfOrParentOption self task showSubtasks));
    [|now exists []].
  destruct (negb (getSelfOrParentOption self task collapseErrors)
            && (getSelfOrParentOption self task showErrorMessage
                || negb (getSelfOrParentOption self task showSubtasks)));
    [now exists [None]|now exists []].
Qed.

(** C4. For an enabled task with a title, in a list where some task has
    failed: if the task has not failed, its [exitOnError] is not [false]
    and it is neither completed nor skipped, its title line is the title
    behind the stopped marker, the red small filled square, whatever its
    state would show otherwise. *)
Theorem stopped_title_line (self : DefaultRenderer) (tasks : list Task)
  (task : Task) (level : Z) (t : jsstring) :
  isEnabled task = true ->
  title task = Some t ->
  existsb hasFailed tasks = true ->
  hasFailed task = false ->
  exitOnError task <> Some false ->
  isCompleted task = false ->
  isSkipped task = false ->
  titleLineIs self tasks level task t (chalk.red figures.squareSmallFilled).
Proof.
  intros Hen Ht Hsome Hf He Hc Hs. apply titleLineIs_intro; [assumption|].
  unfold currentTaskTitle, isStopped. rewrite Ht, Hsome, Hf, Hc, Hs.
  destruct (exitOnError task) as [[]|]; try reflexivity. now elim He.
Qed.

Lemma inState_eq (s : State) (task : Task) :
  inState s task = true <-> state task = Some s.
Proof.
  unfold inState. destruct (state task) as [s'|]; [|easy].
  destruct s, s'; simpl; split; congruence.
Qed.

(** C6 (amended). For an enabled task with a title:
    - skipped, with [collapseSkips] on: the title line is the skip reason
      (the title when no reason is stored or [showSkipMessage] is off),
      followed by [" [SKIPPED]"] unless [suffixSkips] is off;
    - retrying, with [suffixRetries] on, and not shown as stopped (no task
      of its list has failed, or its [exitOnError] is [false]): the title
      line is the title followed by [" [RETRYING-<count>]"]. *)
Theorem skipped_and_retrying_title_lines (self : DefaultRenderer)
  (tasks : list Task) (task : Task) (level : Z) (t : jsstring) :
  isEnabled task = true ->
  title task = Some t ->
  (isSkipped task = true ->
   getSelfOrParentOption self task collapseSkips = true ->
   let reason := match skip (message task) with
                 | Some m => if negb (isEmpty m)
                                && getSelfOrParentOption self task showSkipMessage
                             then m else t
                 | None => t
                 end in
   titleLineIs self tasks level task
     (if getSelfOrParentOption self task suffixSkips
      then reason ++ lit " [SKIPPED]" else reason)
     (chalk.yellow figures.arrowDown))
  /\ (isRetrying task = true ->
      getSelfOrParentOption self task suffixRetries = true ->
      existsb hasFailed tasks = false \/ exitOnError task = Some false ->
      forall count, retry (message task) = Some count ->
      titleLineIs self tasks level task
        (t ++ lit " [RETRYING-" ++ numberToString count ++ lit "]")
        (if flag (options self) lazy then chalk.orange figures.warning
         else chalk.orange (currentFrame self))).
Proof.
  intros Hen Ht. split.
  - intros Hs Hc reason. apply titleLineIs_intro; [assumption|].
    apply inState_eq in Hs.
    unfold currentTaskTitle, isStopped, getSymbol, hasFailed, isCompleted, isSkipped,
      isPending, isRetrying, isRollingBack, hasRolledBack, inState.
    rewrite Ht, Hs, Hc. simpl. rewrite andb_false_r. simpl.
    unfold addSuffixToMessage, truthy. subst reason.
    destruct (skip (message task)) as [m|]; simpl;
      destruct (getSelfOrParentOption self task suffixSkips); try reflexivity;
      destruct (negb (isEmpty m) && getSelfOrParentOption self task showSkipMessage);
      reflexivity.
  - intros Hr Hs Hstop count Hcount. apply titleLineIs_intro; [assumption|].
    apply inState_eq in Hr.
    assert (Hnot : isStopped tasks task = false).
    { unfold isStopped. destruct Hstop as [-> | ->]; [reflexivity|].
      simpl. now rewrite andb_false_r. }
    unfold currentTaskTitle. rewrite Ht, Hnot.
    unfold getSymbol, hasFailed, isCompleted, isSkipped, isPending, isRetrying,
      isRollingBack, hasRolledBack, inState.
    rewrite Hr, Hs, Hcount. simpl.
    destruct (flag (options self) lazy); reflexivity.
Qed.

(** *** The output of a task: prompt bar, bottom bar or inline *)

Lemma barGet_barSet_same (key : String.string) (e : BottomBarEntry)
  (bar : list (String.string * BottomBarEntry)) :
  barGet key (barSet key e bar) = Some e.
Proof.
  induction bar as [|[k e'] bar IH]; simpl.
  - now rewrite String.eqb_refl.
  - destruct (String.eqb k key) eqn:E; simpl; now rewrite E.
Qed.

Lemma barGet_barSet_other (key key' : String.string) (e : BottomBarEntry)
  (bar : list (String.string * BottomBarEntry)) :
  key' <> key -> barGet key' (barSet key e bar) = barGet key' bar.
Proof.
  intros Hne. induction bar as [|[k e'] bar IH]; simpl.
  - destruct (String.eqb_spec key key'); [congruence|reflexivity].
  - destruct (String.eqb_spec k key) as [->|Hk]; simpl.
    + destruct (String.eqb_spec key key'); [congruence|reflexivity].
    + now rewrite IH.
Qed.

Lemma barGet_barDelete_same (key : String.string)
  (bar : list (String.string * BottomBarEntry)) :
  barGet key (barDelete key bar) = None.
Proof.
  induction bar as [|[k e] bar IH]; simpl; [reflexivity|].
  destruct (String.eqb k key) eqn:E; simpl; [exact IH|now rewrite E].
Qed.




Lemma existsb_includes_single (l : option jsstring) (d : list (option jsstring)) :
  existsb (fun element => includes [l] element) d = true <-> In l d.
Proof.
  rewrite existsb_exists. split.
  - intros [x [Hx Hi]]. apply includes_In in Hi. destruct Hi as [<-|[]]. exact Hx.
  - intros H. exists l. split; [exact H|]. apply includes_In. now left.
Qed.

(** C10. For a task whose output goes to the bottom bar: a chunk whose
    rendered form is already among the lines the task has there is not
    added again, so the lines stay free of repetitions; and nothing is
    added while the task is in the SKIPPED state.  Any other chunk is
    added after the lines present. *)
Theorem bottomBar_append_once (self : DefaultRenderer) (task : Task) (level : Z)
  (l : option jsstring) :
  truthy (output task) = true ->
  isActive task && isPrompt task = false ->
  isBottomBar task || negb (hasTitle task) = true ->
  dumpData self task (-1) srcOutput = Ok l ->
  exists self',
    currentTaskOutput self task level = Ok ([], self')
    /\ (In l (bottomBarData self task) ->
        bottomBarData self' task = bottomBarData self task)
    /\ (isSkipped task = true ->
        bottomBarData self' task = bottomBarData self task)
    /\ (~ In l (bottomBarData self task) -> isSkipped task = false ->
        bottomBarData self' task = bottomBarData self task ++ [l])
    /\ (NoDup (bottomBarData self task) -> NoDup (bottomBarData self' task)).
Proof.
  intros Ht Hp Hb Hd. unfold currentTaskOutput. rewrite Ht, Hp, Hb, Hd. cbn [bind].
  eexists. split; [reflexivity|].
  unfold bottomBarData. cbn [bottomBar setBottomBar]. rewrite barGet_barSet_same.
  set (entry := match barGet (id task) (bottomBar self) with
                | Some e => e
                | None => newBottomBarEntry task
                end).
  assert (Hbefore : match barGet (id task) (bottomBar self) with
                    | Some e => data e
                    | None => []
                    end = data entry).
  { subst entry. now destruct (barGet (id task) (bottomBar self)). }
  rewrite Hbefore.
  destruct (existsb (fun element => includes [l] element) (data entry)) eqn:Ein.
  - apply existsb_includes_single in Ein. cbn [negb andb].
    repeat split; auto. intros Hn. now elim Hn.
  - assert (Hnot : ~ In l (data entry)).
    { intros Hin. apply existsb_includes_single in Hin. congruence. }
    cbn [negb andb]. destruct (isSkipped task); cbn [negb data].
    + repeat split; auto; easy.
    + repeat split; try easy.
      intros Hnd. apply NoDup_app; [assumption|repeat constructor; easy|].
      intros a Ha [<-|[]]. now elim Hnot.
Qed.

(* ================================================================ *)
(** ** Subtasks *)

Lemma existsb_Exists {A} (f : A -> bool) (l : list A) :
  existsb f l = true <-> Exists (fun x => f x = true) l.
Proof. rewrite existsb_exists, Exists_exists. reflexivity. Qed.

Lemma existsb_false_Forall {A} (f : A -> bool) (l : list A) :
  existsb f l = false <-> Forall (fun x => f x = false) l.
Proof.
  induction l as [|a l IH]; simpl.
  - split; [constructor|reflexivity].
  - rewrite orb_false_iff, IH. split.
    + intros [H1 H2]. now constructor.
    + intros H. inversion H; subst. now split.
Qed.

(** C7 (amended). For an enabled task, the renderer renders the subtasks
    exactly when [showSubtasks] is on for the task, the task has subtasks,
    and one of these holds: the task is pending; it has failed; it is
    completed and has no title; it is completed, [collapse] is off for it
    and no subtask has [collapse] on; some subtask has [collapse] off, has
    failed or has rolled back.  The subtasks are then rendered one level
    deeper when the task has a title and at the level of the task when it
    has none; otherwise they are not rendered. *)
Theorem subtasks_rendered_iff (self : DefaultRenderer) (tasks : list Task)
  (task : Task) (level : Z) :
  isEnabled task = true ->
  (shouldRenderSubtasks self task = true
   <-> getSelfOrParentOption self task showSubtasks = true
       /\ subtasks task <> []
       /\ (isPending task = true
           \/ hasFailed task = true
           \/ (isCompleted task = true /\ title task = None)
           \/ (isCompleted task = true
               /\ getSelfOrParentOption self task collapse = false
               /\ Forall (fun subtask => rendererOptions subtask collapse <> Some true)
                    (subtasks task))
           \/ Exists (fun subtask => rendererOptions subtask collapse = Some false)
                (subtasks task)
           \/ Exists (fun subtask => hasFailed subtask = true) (subtasks task)
           \/ Exists (fun subtask => hasRolledBack subtask = true) (subtasks task)))
  /\ renderTask tasks level task self
     = (titleLines <- currentTaskTitle self tasks task level ;;
        messageLines <- currentTaskMessages self task level ;;
        '(outputLines, self1) <- currentTaskOutput self task level ;;
        if shouldRenderSubtasks self task then
          '(subtaskRender, self2) <-
            multiLineRenderer (subtasks task)
              (if hasTitle task then level + 1 else level) self1 ;;
          Ok (titleLines ++ messageLines ++ outputLines
              ++ (if match subtaskRender with
                     | Some r => negb (isEmpty (trim r))
                     | None => true
                     end
                     && negb (forallb (fun subtask => negb (hasTitle subtask))
                                (subtasks task))
                  then [subtaskRender] else []),
              afterTaskFinished task self2)
        else Ok (titleLines ++ messageLines ++ outputLines,
                 afterTaskFinished task self1)).
Proof.
  intros Hen. split.
  - unfold shouldRenderSubtasks.
    rewrite !andb_true_iff, !orb_true_iff, !andb_true_iff, !negb_true_iff.
    assert (H1 : hasSubtasks task = true <-> subtasks task <> []).
    { unfold hasSubtasks. destruct (subtasks task); split; easy. }
    assert (H2 : hasTitle task = false <-> title task = None).
    { unfold hasTitle. destruct (title task); split; easy. }
    assert (H3 : existsb (fun subtask =>
                    match rendererOptions subtask collapse with
                    | Some true => true | _ => false end) (subtasks task) = false
                 <-> Forall (fun subtask => rendererOptions subtask collapse <> Some true)
                       (subtasks task)).
    { rewrite existsb_false_Forall, !Forall_forall.
      split; intros H x Hx; specialize (H x Hx);
        destruct (rendererOptions x collapse) as [[]|]; easy. }
    assert (H4 : existsb (fun subtask =>
                    match rendererOptions subtask collapse with
                    | Some false => true | _ => false end) (subtasks task) = true
                 <-> Exists (fun subtask => rendererOptions subtask collapse = Some false)
                       (subtasks task)).
    { rewrite existsb_Exists, !Exists_exists.
      split; intros [x [Hx H]]; exists x; split; try assumption;
        destruct (rendererOptions x collapse) as [[]|]; easy. }
    rewrite H1, H2, H3, H4, !existsb_Exists. tauto.
  - rewrite renderTask_eq, Hen.
    destruct (currentTaskTitle self tasks task level) as [titleLines|]; [|reflexivity].
    destruct (currentTaskMessages self task level) as [messageLines|]; [|reflexivity].
    destruct (currentTaskOutput self task level) as [[outputLines self1]|] eqn:Eo;
      [|reflexivity].
    cbn [bind].
    rewrite (shouldRenderSubtasks_options self self1 task
               (currentTaskOutput_options _ _ _ _ _ Eo)).
    now destruct (hasTitle task).
Qed.

(* ================================================================ *)
(** ** The bottom bar across a render pass *)

Lemma slice_length {A} (a : list A) (n : Z) :
  1 <= n -> Z.of_nat (length (sliceLast a (Some n))) <= n.
Proof.
  intros H. unfold sliceLast, slice.
  destruct (- n <? 0) eqn:E; [|lia]. rewrite length_skipn. lia.
Qed.

(** After [renderBottomBar], an entry whose item count is a positive number
    holds no more lines than that. *)
Lemma renderBottomBar_bound (self : DefaultRenderer) (key : String.string)
  (entry : BottomBarEntry) (n : Z) :
  In (key, entry) (bottomBar (snd (renderBottomBar self))) ->
  items entry = Some n -> 1 <= n ->
  Z.of_nat (length (data entry)) <= n.
Proof.
  unfold renderBottomBar. destruct (bottomBar self) as [|b bar] eqn:Eb.
  - simpl. now rewrite Eb.
  - cbn [snd bottomBar setBottomBar]. intros Hin Hitems Hn.
    apply in_map_iff in Hin. destruct Hin as [[k e] [E _]].
    injection E as _ <-. cbn [items data] in *. rewrite Hitems.
    now apply slice_length.
Qed.

(** The storage a task gets holds 1 item for a boolean [bottomBar] and [n]
    for the number [n]. *)
Lemma newBottomBarEntry_items (task : Task) :
  match bottomBarOption (getTaskOptions task) with
  | Some (bbBool _) => items (newBottomBarEntry task) = Some 1
  | Some (bbNumber n) => items (newBottomBarEntry task) = Some n
  | None => items (newBottomBarEntry task) = None
  end.
Proof. unfold newBottomBarEntry. now destruct (bottomBarOption _) as [[]|]. Qed.

(** X16. When a task that is rendered has settled, the prompt bar is
    cleared, and its bottom bar storage is deleted unless [persistentOutput]
    is set. *)
Lemma renderTask_settled (tasks : list Task) (level : Z) (task : Task)
  (self self' : DefaultRenderer) (lines : list (option jsstring)) :
  isEnabled task = true ->
  isCompleted task || hasFailed task || isSkipped task || hasRolledBack task = true ->
  renderTask tasks level task self = Ok (lines, self') ->
  promptBar self' = None
  /\ (hasPersistentOutput task = false -> barGet (id task) (bottomBar self') = None).
Proof.
  intros Hen Hs H. rewrite renderTask_eq, Hen in H.
  apply bind_Ok in H. destruct H as [titleLines [_ H]].
  apply bind_Ok in H. destruct H as [messageLines [_ H]].
  apply bind_Ok in H. destruct H as [[outputLines self1] [_ H]].
  assert (Hafter : forall s, promptBar (afterTaskFinished task s) = None
            /\ (hasPersistentOutput task = false ->
                barGet (id task) (bottomBar (afterTaskFinished task s)) = None)).
  { intros s. unfold afterTaskFinished. rewrite Hs.
    destruct (hasPersistentOutput task); simpl; split; try easy.
    intros _. apply barGet_barDelete_same. }
  destruct (shouldRenderSubtasks self1 task).
  - apply bind_Ok in H. destruct H as [[subtaskRender self2] [_ H]].
    injection H as _ <-. apply Hafter.
  - injection H as _ <-. apply Hafter.
Qed.

(** X15. After a render pass, every bottom bar entry whose item count is a
    positive number holds no more lines than that. *)
Lemma createRender_bound (tasks : list Task) (opts : CreateRenderOptions)
  (self self' : DefaultRenderer) (frame : jsstring) (key : String.string)
  (entry : BottomBarEntry) (n : Z) :
  createRender tasks opts self = Ok (frame, self') ->
  In (key, entry) (bottomBar self') ->
  items entry = Some n -> 1 <= n ->
  Z.of_nat (length (data entry)) <= n.
Proof.
  unfold createRender. intros H.
  apply bind_Ok in H. destruct H as [[renderTasks self1] [_ H]].
  destruct (renderBottomBar self1) as [renderedBottomBar self2] eqn:E.
  injection H as _ <-. intros Hin.
  apply (renderBottomBar_bound self1 key entry n). now rewrite E.
Qed.

(* ================================================================ *)
(** ** Further results: the layout of a line *)

Lemma split_singleLine (s : jsstring) : onlyLF s -> Forall singleLine (split s).
Proof.
  intros Hlf.
  pose proof (split_parts_noLF s) as H1.
  pose proof (split_Forall _ _ Hlf) as H2.
  rewrite Forall_forall in *. intros p Hp.
  specialize (H1 p Hp). specialize (H2 p Hp).
  unfold singleLine, noLF in *. rewrite Forall_forall in *. intros c Hc.
  destruct (isLineTerminator c) eqn:E; [|reflexivity].
  elim (H1 c Hc). now apply H2.
Qed.

Lemma cliTruncate_singleLine (t : jsstring) (columns : Z) :
  singleLine t -> singleLine (cliTruncate t columns).
Proof.
  intros H. unfold cliTruncate.
  destruct (columns <? 1); [constructor|].
  destruct (columns =? 1); [repeat constructor|].
  destruct (stringWidth t <=? columns); [assumption|].
  apply Forall_app. split; [now apply firstn_all|repeat constructor].
Qed.

Lemma cliTruncate_width (t : jsstring) (columns : Z) :
  1 <= columns -> stringWidth (cliTruncate t columns) <= columns.
Proof.
  intros H. unfold cliTruncate.
  destruct (columns <? 1) eqn:E1; [lia|].
  destruct (columns =? 1) eqn:E2; [unfold stringWidth; simpl; lia|].
  destruct (stringWidth t <=? columns) eqn:E3; [lia|].
  unfold stringWidth in *. rewrite length_app, length_firstn. simpl. lia.
Qed.

(** The lines of the indented text, when the lines of the text satisfy [Q]
    and [Q] gives [P] with and without the indent in front. *)
Lemma indentString_lines_of (Q P : jsstring -> Prop) (s : jsstring) (count : Z) :
  0 <= count -> onlyLF s ->
  (forall l, Q l -> P l /\ P (spaces count ++ l)) ->
  Forall Q (split s) ->
  exists out, indentString s count = Ok out /\ Forall P (split out).
Proof.
  intros Hc Hs HQP HQ. unfold indentString.
  destruct (count <? 0) eqn:E1; [lia|].
  destruct (count =? 0) eqn:E2.
  - exists s. split; [reflexivity|].
    eapply Forall_impl; [|exact HQ]. intros l Hl. now apply HQP.
  - eexists. split; [reflexivity|].
    destruct (indentFrom_lines (spaces count) s (spaces_noLF count) Hs true)
      as [l0' [ls' [E [H0 Hrest]]]].
    fold (spaces count). rewrite E.
    pose proof (split_nonempty s) as Hn.
    destruct (split s) as [|l0 ls]; [easy|]. simpl in H0, Hrest.
    inversion HQ as [|? ? Hl0 Hls]; subst.
    constructor.
    + destruct H0 as [-> | [_ ->]]; now apply HQP.
    + clear - Hls Hrest HQP. revert Hls.
      induction Hrest as [|l l' ls ls' Hl Hr IH]; intros Hls; constructor.
      * inversion Hls; subst. destruct Hl as [-> | ->]; now apply HQP.
      * inversion Hls; subst. auto.
Qed.

(** What [formatString] does with the parsed lines, when there are some. *)
Lemma layout_lines (Q P : jsstring -> Prop) (parsed : list jsstring) (count : Z) :
  0 <= count ->
  (forall l, Q l -> P l /\ P (spaces count ++ l)) ->
  parsed <> [] ->
  Forall (fun b => singleLine b /\ Q b) parsed ->
  exists out, indentString (join EOL parsed) count = Ok out /\ Forall P (split out).
Proof.
  intros Hc HQP Hne HQ.
  apply (indentString_lines_of Q P); try assumption.
  - apply join_Forall; [reflexivity|].
    eapply Forall_impl; [|exact HQ]. intros b [H _]. now apply singleLine_onlyLF.
  - rewrite split_join; [|assumption|].
    + eapply Forall_impl; [|exact HQ]. now intros ? [_ ?].
    + eapply Forall_impl; [|exact HQ]. intros ? [H _]. now apply singleLine_noLF.
Qed.

Lemma filterBoolean_Forall (P : jsstring -> Prop) (parsed : list jsstring) :
  Forall P parsed -> Forall (fun b => P b /\ b <> []) (filterBoolean parsed).
Proof.
  unfold filterBoolean. rewrite !Forall_forall. intros H b Hb.
  apply filter_In in Hb. destruct Hb as [Hin Hne]. split; [auto|].
  destruct b; [discriminate|easy].
Qed.

Lemma indentMultilineOutput_singleLine (p : jsstring) (i : nat) :
  singleLine p -> exists b, indentMultilineOutput p i = Ok b /\ singleLine b.
Proof.
  intros H.
  destruct (indentMultilineOutput_piece p i (stringWidth p) H (Z.le_refl _))
    as [b [E [Hb _]]].
  eauto.
Qed.

(** The lines of the truncate mode, before the empty ones are removed. *)
Lemma truncate_parsed (text : jsstring) (columns : Z) :
  onlyLF text ->
  exists parsed,
    mapi (fun s i => s' <- indentMultilineOutput s i ;; Ok (cliTruncate s' columns))
         (split text) = Ok parsed
    /\ Forall (fun b => singleLine b
                        /\ (1 <= columns -> stringWidth b <= columns)
                        /\ (columns < 1 -> b = [])) parsed.
Proof.
  intros Hlf. pose proof (split_singleLine text Hlf) as Hp.
  destruct (mapi_from_Ok
              (fun s i => s' <- indentMultilineOutput s i ;; Ok (cliTruncate s' columns))
              (fun b => singleLine b
                        /\ (1 <= columns -> stringWidth b <= columns)
                        /\ (columns < 1 -> b = []))
              (split text) 0%nat) as [parsed [E [HQ _]]]; [|eauto].
  intros a j Ha. rewrite Forall_forall in Hp.
  destruct (indentMultilineOutput_singleLine a j (Hp a Ha)) as [b [Eb Hb]].
  rewrite Eb. cbn [bind]. eexists. split; [reflexivity|]. split; [|split].
  - now apply cliTruncate_singleLine.
  - apply cliTruncate_width.
  - intros Hc. unfold cliTruncate. destruct (columns <? 1) eqn:E1; [reflexivity|lia].
Qed.



(** X3. With [removeEmptyLines] set, in truncate mode on text whose only
    line ends are LF, the output of [formatString] is the empty string or
    has no empty line: the lines that come out empty are removed. *)
Theorem formatString_no_empty_line (self : DefaultRenderer) (str icon : jsstring)
  (level : Z) :
  formatOutput (options self) = truncate ->
  flag (options self) removeEmptyLines = true ->
  trim str <> [] ->
  onlyLF (icon ++ lit " " ++ str) ->
  0 <= level * indentation (options self) ->
  exists out,
    formatString self str icon level = Ok (Some out)
    /\ (out = [] \/ Forall (fun l => l <> []) (split out)).
Proof.
  intros Hf Hr Hb Hlf Hind. unfold formatString.
  apply isEmpty_false in Hb. rewrite Hb, Hf, Hr.
  destruct (truncate_parsed (icon ++ lit " " ++ str) (availableColumns self level) Hlf)
    as [parsed [E HQ]].
  rewrite E. cbn [bind].
  assert (HQ' : Forall (fun b => singleLine b /\ b <> []) (filterBoolean parsed)).
  { apply filterBoolean_Forall. eapply Forall_impl; [|exact HQ]. now intros b [H _]. }
  destruct (filterBoolean parsed) as [|b bs] eqn:Ep.
  - cbn [join]. exists []. split; [|now left]. unfold indentString.
    destruct (_ <? 0) eqn:E1; [lia|]. now destruct (_ =? 0).
  - destruct (layout_lines (fun l => l <> []) (fun l => l <> []) (b :: bs)
                (level * indentation (options self))) as [out [Eo Ho]];
      [assumption| |easy|assumption|].
    + intros l Hl. split; [assumption|]. intros H. apply app_eq_nil in H. now destruct H.
    + rewrite Eo. cbn [bind]. exists out. split; [reflexivity|now right].
Qed.

(* ================================================================ *)
(** ** Further results: symbols and title lines *)

Lemma getSymbol_data_skipped (self : DefaultRenderer) (task : Task) :
  isSkipped task = true -> getSymbol self task true = chalk.yellow figures.arrowDown.
Proof.
  intros H. unfold getSymbol. cbn [negb]. rewrite !andb_false_r, H. reflexivity.
Qed.

Lemma getSymbol_data_unskipped (self : DefaultRenderer) (task : Task) :
  isSkipped task = false -> getSymbol self task true = figures.pointerSmall.
Proof.
  intros H. unfold getSymbol. cbn [negb]. rewrite !andb_false_r, H. reflexivity.
Qed.

(** X4. The symbol of a data line depends on one thing only: it is the
    down arrow for a skipped task and the small pointer for any other. *)
Theorem getSymbol_data (self : DefaultRenderer) (task : Task) :
  getSymbol self task true
  = if isSkipped task then chalk.yellow figures.arrowDown else figures.pointerSmall.
Proof.
  unfold getSymbol. cbn [negb]. rewrite !andb_false_r. cbn [orb andb].
  rewrite andb_true_r. reflexivity.
Qed.

(** X5. The symbol of a task moves with the spinner only while the task is
    pending, retrying or rolling back, in a renderer that is not lazy, and
    for its title line: in every other case two renderers with the same
    options give the same symbol, whatever frame their spinners are at. *)
Theorem getSymbol_still (self self' : DefaultRenderer) (task : Task) (data : bool) :
  options self = options self' ->
  flag (options self) lazy = true \/ isActive task = false \/ data = true ->
  getSymbol self task data = getSymbol self' task data.
Proof.
  intros Ho H. unfold getSymbol, getSelfOrParentOption, isActive in *.
  rewrite <- Ho.
  unfold isPending, isRetrying, isRollingBack, isCompleted, hasFailed, isSkipped,
    hasRolledBack, inState in *.
  destruct (state task) as [[]|]; cbn in *; destruct data; cbn;
    try reflexivity;
    destruct (flag (options self) lazy); cbn; try reflexivity;
    destruct H as [H|[H|H]]; discriminate H.
Qed.

Lemma isStopped_settled (tasks : list Task) (task : Task) :
  hasFailed task || isCompleted task || isSkipped task = true ->
  isStopped tasks task = false.
Proof.
  unfold isStopped. intros H.
  destruct (hasFailed task); [now rewrite andb_false_r|].
  cbn in H. rewrite H. cbn. now rewrite !andb_false_r.
Qed.

(** X6. For an enabled task with a title that has failed, with
    [collapseErrors] on: the title line is the error text when the task has
    no subtasks, an error text is stored and [showErrorMessage] is on, and
    the title otherwise; its symbol is the cross, or the pointer when the
    task has subtasks.  A failed sibling does not change it. *)
Theorem failed_title_line (self : DefaultRenderer) (tasks : list Task)
  (task : Task) (level : Z) (t : jsstring) :
  isEnabled task = true ->
  title task = Some t ->
  hasFailed task = true ->
  getSelfOrParentOption self task collapseErrors = true ->
  titleLineIs self tasks level task
    (match error (message task) with
     | Some e => if negb (hasSubtasks task) && negb (isEmpty e)
                    && getSelfOrParentOption self task showErrorMessage
                 then e else t
     | None => t
     end)
    (if hasSubtasks task then chalk.red figures.pointer else chalk.red figures.cross).
Proof.
  intros Hen Ht Hf Hc. apply titleLineIs_intro; [assumption|].
  unfold currentTaskTitle. rewrite Ht, isStopped_settled by now rewrite Hf.
  rewrite Hf, Hc. cbn [negb andb].
  apply inState_eq in Hf.
  unfold getSymbol, isPending, isCompleted, isRetrying, isRollingBack, hasRolledBack,
    hasFailed, inState. rewrite Hf. cbn.
  unfold truthy. destruct (error (message task)) as [e|]; cbn.
  - destruct (negb (hasSubtasks task)); cbn; reflexivity.
  - now rewrite andb_false_r.
Qed.

(** X7. For an enabled task with a title that is completed: the title line
    is the title, followed by the task time in brackets when [showTimer] is
    on for the task or in its own options; its symbol is the tick, or the
    warning sign when one of its subtasks has failed.  A failed sibling
    does not change it. *)
Theorem completed_title_line (self : DefaultRenderer) (tasks : list Task)
  (task : Task) (level : Z) (t : jsstring) :
  isEnabled task = true ->
  title task = Some t ->
  isCompleted task = true ->
  titleLineIs self tasks level task
    (if getSelfOrParentOption self task showTimer || hasTimer task
     then t ++ lit " [" ++ parseTaskTime (duration (message task)) ++ lit "]"
     else t)
    (if hasSubtasks task && existsb hasFailed (subtasks task)
     then chalk.yellow figures.warning else chalk.green figures.tick).
Proof.
  intros Hen Ht Hc. apply titleLineIs_intro; [assumption|].
  unfold currentTaskTitle.
  rewrite Ht, isStopped_settled by (rewrite Hc; now rewrite orb_true_r).
  cbn [negb]. unfold hasTitle. rewrite Ht.
  apply inState_eq in Hc.
  unfold getSymbol, getTaskTime, isPending, isCompleted, isRetrying, isRollingBack,
    hasRolledBack, hasFailed, isSkipped, inState. rewrite Hc. cbn.
  destruct (getSelfOrParentOption self task showTimer || hasTimer task); reflexivity.
Qed.

(** X8. For an enabled task with a title that is skipped, with
    [collapseSkips] off: the title line is the title behind the warning
    sign; and the skip reason, when one is stored, is a data line of its own
    behind the down arrow, one level deeper, when the task has no subtasks
    and [showSkipMessage] is on, or when [showSubtasks] is off. *)
Theorem skipped_uncollapsed_lines (self : DefaultRenderer) (tasks : list Task)
  (task : Task) (level : Z) (t : jsstring) :
  isEnabled task = true ->
  title task = Some t ->
  isSkipped task = true ->
  getSelfOrParentOption self task collapseSkips = false ->
  titleLineIs self tasks level task t (chalk.yellow figures.warning)
  /\ currentTaskMessages self task level
     = if (negb (hasSubtasks task) && getSelfOrParentOption self task showSkipMessage)
          || negb (getSelfOrParentOption self task showSubtasks)
       then match skip (message task) with
            | Some m => l <- formatString self m (chalk.yellow figures.arrowDown)
                              (level + 1) ;;
                        Ok [l]
            | None => Ok [None]
            end
       else Ok [].
Proof.
  intros Hen Ht Hs Hc. split.
  - apply titleLineIs_intro; [assumption|].
    unfold currentTaskTitle.
    rewrite Ht, isStopped_settled by (rewrite Hs; now rewrite orb_true_r).
    apply inState_eq in Hs.
    unfold getSymbol, isPending, isCompleted, isRetrying, isRollingBack, hasRolledBack,
      hasFailed, isSkipped, inState. rewrite Hs, Hc. reflexivity.
  - unfold currentTaskMessages, dumpData. rewrite getSymbol_data_skipped by assumption.
    rewrite Hs, Hc.
    assert (Hf : hasFailed task = false).
    { apply inState_eq in Hs. unfold hasFailed, inState. now rewrite Hs. }
    rewrite Hf. cbn [andb negb]. rewrite andb_false_r. cbn [andb].
    destruct (hasSubtasks task), (getSelfOrParentOption self task showSubtasks),
      (getSelfOrParentOption self task showSkipMessage); cbn;
      try reflexivity; destruct (skip (message task)); reflexivity.
Qed.

(** X9. For an enabled task with a title that has failed, with
    [collapseErrors] off: the title line is the title behind the cross (the
    pointer when the task has subtasks); and the error text, when one is
    stored and differs from the title, is a data line of its own behind the
    small pointer, one level deeper, when the task has no subtasks and
    [showErrorMessage] is on, or when [showSubtasks] is off. *)
Theorem failed_uncollapsed_lines (self : DefaultRenderer) (tasks : list Task)
  (task : Task) (level : Z) (t : jsstring) :
  isEnabled task = true ->
  title task = Some t ->
  hasFailed task = true ->
  getSelfOrParentOption self task collapseErrors = false ->
  titleLineIs self tasks level task t
    (if hasSubtasks task then chalk.red figures.pointer else chalk.red figures.cross)
  /\ currentTaskMessages self task level
     = if (negb (hasSubtasks task) && getSelfOrParentOption self task showErrorMessage)
          || negb (getSelfOrParentOption self task showSubtasks)
       then match error (message task) with
            | Some e => if str_eqb e t then Ok [None]
                        else l <- formatString self e figures.pointerSmall (level + 1) ;;
                             Ok [l]
            | None => Ok [None]
            end
       else Ok [].
Proof.
  intros Hen Ht Hf Hc. split.
  - apply titleLineIs_intro; [assumption|].
    unfold currentTaskTitle. rewrite Ht, isStopped_settled by now rewrite Hf.
    rewrite Hf, Hc. cbn [negb andb].
    apply inState_eq in Hf.
    unfold getSymbol, isPending, isCompleted, isRetrying, isRollingBack, hasRolledBack,
      hasFailed, isSkipped, inState. rewrite Hf. cbn.
    destruct (getSelfOrParentOption self task suffixRetries); reflexivity.
  - unfold currentTaskMessages, dumpData, hasTitle.
    assert (Hs : isSkipped task = false).
    { apply inState_eq in Hf. unfold isSkipped, inState. now rewrite Hf. }
    rewrite (getSymbol_data_unskipped self task Hs).
    rewrite Hf, Hc, Ht, Hs. cbn [andb negb value_eqb].
    destruct (error (message task)) as [e|]; cbn [value_eqb andb];
      [destruct (str_eqb e t)|];
      destruct (hasSubtasks task), (getSelfOrParentOption self task showSubtasks),
        (getSelfOrParentOption self task showErrorMessage); reflexivity.
Qed.

(* ================================================================ *)
(** ** Further results: a pass over the task tree *)

(** Induction on a task with the property at hand for its subtasks. *)
Lemma Task_tree_ind (P : Task -> Prop) :
  (forall task, Forall P (subtasks task) -> P task) -> forall task, P task.
Proof.
  intros H. fix IH 1. intros [i t st en pr out msg subs ro rto eoe].
  apply H. cbn [subtasks].
  induction subs as [|sub subs IHsubs]; constructor; [apply IH|exact IHsubs].
Qed.

Lemma sameSettings_refl (a : DefaultRenderer) : sameSettings a a.
Proof. now repeat split. Qed.

Lemma sameSettings_trans (a b c : DefaultRenderer) :
  sameSettings a b -> sameSettings b c -> sameSettings a c.
Proof.
  intros [H1 [H2 H3]] [H4 [H5 H6]]. repeat split; etransitivity; eassumption.
Qed.

Lemma barGet_barDelete_other (key key' : String.string)
  (bar : list (String.string * BottomBarEntry)) :
  key' <> key -> barGet key' (barDelete key bar) = barGet key' bar.
Proof.
  intros Hne. induction bar as [|[k e] bar IH]; simpl; [reflexivity|].
  destruct (String.eqb_spec k key) as [->|Hk]; simpl.
  - rewrite IH. destruct (String.eqb_spec key key'); [congruence|reflexivity].
  - now rewrite IH.
Qed.

(** What a pass may change: the prompt bar, and the bottom bar under the
    keys [ids]. *)
Lemma currentTaskOutput_frame (self self' : DefaultRenderer) (task : Task)
  (level : Z) (lines : list (option jsstring)) :
  currentTaskOutput self task level = Ok (lines, self') ->
  sameSettings self self'
  /\ forall key, key <> id task ->
       barGet key (bottomBar self') = barGet key (bottomBar self).
Proof.
  unfold currentTaskOutput. intros H.
  destruct (truthy (output task)); [|injection H as _ <-; split; [apply sameSettings_refl|easy]].
  destruct (isActive task && isPrompt task).
  { injection H as _ <-. split; [now repeat split|easy]. }
  destruct (isBottomBar task || negb (hasTitle task)).
  - apply bind_Ok in H. destruct H as [l [_ H]]. injection H as _ <-.
    split; [now repeat split|]. intros key Hk. cbn [bottomBar setBottomBar].
    now apply barGet_barSet_other.
  - destruct (isActive task || hasPersistentOutput task).
    + apply bind_Ok in H. destruct H as [l [_ H]]. injection H as _ <-.
      split; [apply sameSettings_refl|easy].
    + injection H as _ <-. split; [apply sameSettings_refl|easy].
Qed.

Lemma afterTaskFinished_frame (task : Task) (self : DefaultRenderer) :
  sameSettings self (afterTaskFinished task self)
  /\ forall key, key <> id task ->
       barGet key (bottomBar (afterTaskFinished task self)) = barGet key (bottomBar self).
Proof.
  unfold afterTaskFinished.
  destruct (isCompleted task || hasFailed task || isSkipped task || hasRolledBack task);
    [|split; [apply sameSettings_refl|easy]].
  destruct (negb (hasPersistentOutput task)); (split; [now repeat split|]).
  - intros key Hk. cbn [bottomBar setBottomBar setPromptBar].
    now apply barGet_barDelete_other.
  - easy.
Qed.

Lemma forEachTask_frame
  (body : Task -> DefaultRenderer -> Result (list (option jsstring) * DefaultRenderer))
  (tasks : list Task) :
  Forall (fun task => forall self lines self',
            body task self = Ok (lines, self') ->
            sameSettings self self'
            /\ forall key, ~ In key (taskIds task) ->
                 barGet key (bottomBar self') = barGet key (bottomBar self)) tasks ->
  forall self lines self',
    forEachTask body tasks self = Ok (lines, self') ->
    sameSettings self self'
    /\ forall key, ~ In key (flat_map taskIds tasks) ->
         barGet key (bottomBar self') = barGet key (bottomBar self).
Proof.
  induction 1 as [|task tasks Htask _ IH]; intros self lines self' H.
  - injection H as _ <-. split; [apply sameSettings_refl|easy].
  - cbn [forEachTask] in H.
    apply bind_Ok in H. destruct H as [[lines1 self1] [E1 H]].
    apply bind_Ok in H. destruct H as [[lines2 self2] [E2 H]].
    injection H as _ <-.
    destruct (Htask _ _ _ E1) as [S1 K1]. destruct (IH _ _ _ E2) as [S2 K2].
    split; [eapply sameSettings_trans; eassumption|].
    intros key Hk. cbn [flat_map] in Hk. rewrite in_app_iff in Hk.
    rewrite K2, K1; auto.
Qed.

Lemma renderTask_frame (task : Task) :
  forall tasks level self lines self',
    renderTask tasks level task self = Ok (lines, self') ->
    sameSettings self self'
    /\ forall key, ~ In key (taskIds task) ->
         barGet key (bottomBar self') = barGet key (bottomBar self).
Proof.
  induction task as [task IH] using Task_tree_ind.
  intros tasks level self lines self' H. rewrite renderTask_eq in H.
  destruct (isEnabled task);
    [|injection H as _ <-; split; [apply sameSettings_refl|easy]].
  apply bind_Ok in H. destruct H as [titleLines [_ H]].
  apply bind_Ok in H. destruct H as [messageLines [_ H]].
  apply bind_Ok in H. destruct H as [[outputLines self1] [Eo H]].
  destruct (currentTaskOutput_frame _ _ _ _ _ Eo) as [S1 K1].
  assert (Hid : forall key, ~ In key (taskIds task) -> key <> id task).
  { intros key Hk ->. apply Hk. destruct task. now left. }
  assert (Hsub : forall key, ~ In key (taskIds task) ->
                   ~ In key (flat_map taskIds (subtasks task))).
  { intros key Hk Hin. apply Hk. destruct task. now right. }
  destruct (shouldRenderSubtasks self1 task).
  - apply bind_Ok in H. destruct H as [[subtaskRender self2] [Es H]].
    injection H as _ <-.
    unfold multiLineRenderer in Es.
    apply bind_Ok in Es. destruct Es as [[sublines self2'] [Ef Es]].
    injection Es as _ ->.
    destruct (forEachTask_frame _ (subtasks task)
                ltac:(eapply Forall_impl; [|exact IH]; intros sub Hsubt; apply Hsubt)
                _ _ _ Ef) as [S2 K2].
    destruct (afterTaskFinished_frame task self2) as [S3 K3].
    split; [eapply sameSettings_trans; [|exact S3];
            eapply sameSettings_trans; eassumption|].
    intros key Hk. rewrite K3, K2, K1; auto.
  - injection H as _ <-.
    destruct (afterTaskFinished_frame task self1) as [S3 K3].
    split; [eapply sameSettings_trans; eassumption|].
    intros key Hk. rewrite K3, K1; auto.
Qed.

(** X10. A pass of [multiLineRenderer] over a list of tasks leaves the
    options, the spinner and its position as they were, and touches the
    bottom bar only under the ids of the tasks of the list and of the tasks
    below them: the lines stored for any other id stay. *)
Theorem multiLineRenderer_frame (tasks : list Task) (level : Z)
  (self self' : DefaultRenderer) (render : option jsstring) :
  multiLineRenderer tasks level self = Ok (render, self') ->
  sameSettings self self'
  /\ forall key, ~ In key (flat_map taskIds tasks) ->
       barGet key (bottomBar self') = barGet key (bottomBar self).
Proof.
  unfold multiLineRenderer. intros H.
  apply bind_Ok in H. destruct H as [[lines self2] [Ef H]]. injection H as _ <-.
  apply (forEachTask_frame (renderTask tasks level) tasks) with (lines := lines);
    [|exact Ef].
  apply Forall_forall. intros task _. apply renderTask_frame.
Qed.

Lemma filterDefined_nonempty (output : list (option jsstring)) :
  Forall (fun line => line <> []) (filterDefined output).
Proof.
  induction output as [|[line|] output IH]; cbn; [constructor| |exact IH].
  destruct line; cbn; [exact IH|]. now constructor.
Qed.

(** X11. [multiLineRenderer] never returns the empty string: when no line
    is left after the empty ones are filtered out it returns nothing. *)
Theorem multiLineRenderer_not_empty (tasks : list Task) (level : Z)
  (self self' : DefaultRenderer) (render : jsstring) :
  multiLineRenderer tasks level self = Ok (Some render, self') -> render <> [].
Proof.
  unfold multiLineRenderer. intros H.
  apply bind_Ok in H. destruct H as [[lines self2] [_ H]]. injection H as H _.
  unfold joinOutput in H. pose proof (filterDefined_nonempty lines) as Hne.
  destruct (filterDefined lines) as [|line rest]; [discriminate|].
  injection H as <-. inversion Hne as [|? ? Hline _]; subst.
  destruct rest; cbn; [assumption|]. destruct line; [easy|discriminate].
Qed.

(** *** Disabled tasks *)

Lemma renderTask_siblings (tasks tasks' : list Task) (level : Z) (task : Task)
  (self : DefaultRenderer) :
  existsb hasFailed tasks = existsb hasFailed tasks' ->
  renderTask tasks level task self = renderTask tasks' level task self.
Proof.
  intros H. rewrite !renderTask_eq. unfold currentTaskTitle, isStopped. now rewrite H.
Qed.

Lemma forEachTask_ext
  (body body' : Task -> DefaultRenderer -> Result (list (option jsstring) * DefaultRenderer))
  (tasks : list Task) (self : DefaultRenderer) :
  (forall task s, body task s = body' task s) ->
  forEachTask body tasks self = forEachTask body' tasks self.
Proof.
  intros H. revert self. induction tasks as [|task tasks IH]; intros self; cbn;
    [reflexivity|].
  rewrite H. destruct (body' task self) as [[lines self1]|]; cbn; [|reflexivity].
  now rewrite IH.
Qed.

Lemma forEachTask_skip
  (body : Task -> DefaultRenderer -> Result (list (option jsstring) * DefaultRenderer))
  (before after : list Task) (task : Task) (self : DefaultRenderer) :
  (forall s, body task s = Ok ([], s)) ->
  forEachTask body (before ++ task :: after) self
  = forEachTask body (before ++ after) self.
Proof.
  intros H. revert self. induction before as [|b before IH]; intros self; cbn.
  - rewrite H. cbn. destruct (forEachTask body after self) as [[lines self1]|];
      reflexivity.
  - destruct (body b self) as [[lines self1]|]; cbn; [|reflexivity]. now rewrite IH.
Qed.

(** X12. A disabled task that has not failed is invisible: with it or
    without it in the list, [multiLineRenderer] returns the same text and
    leaves the renderer in the same state.  (A failed task counts for the
    stopped marker of the others even when it is disabled.) *)
Theorem disabled_task_invisible (before after : list Task) (task : Task)
  (level : Z) (self : DefaultRenderer) :
  isEnabled task = false ->
  hasFailed task = false ->
  multiLineRenderer (before ++ task :: after) level self
  = multiLineRenderer (before ++ after) level self.
Proof.
  intros Hen Hf. unfold multiLineRenderer.
  rewrite (forEachTask_ext (renderTask (before ++ task :: after) level)
             (renderTask (before ++ after) level)).
  - rewrite forEachTask_skip; [reflexivity|].
    intros s. now rewrite renderTask_eq, Hen.
  - intros t s. apply renderTask_siblings.
    rewrite !existsb_app. cbn. now rewrite Hf.
Qed.

(** X20. Persistent output outlives the task in the bottom bar: when an
    enabled task without subtasks has settled (completed, failed or rolled
    back), has [persistentOutput] set and writes to the bottom bar, the
    rendered form of its output is among its bottom bar lines after the
    pass over it. *)
Theorem persistent_bottomBar_kept (tasks : list Task) (level : Z) (task : Task)
  (self self' : DefaultRenderer) (lines : list (option jsstring))
  (l : option jsstring) :
  isEnabled task = true ->
  subtasks task = [] ->
  isCompleted task || hasFailed task || hasRolledBack task = true ->
  hasPersistentOutput task = true ->
  truthy (output task) = true ->
  isBottomBar task || negb (hasTitle task) = true ->
  dumpData self task (-1) srcOutput = Ok l ->
  renderTask tasks level task self = Ok (lines, self') ->
  In l (bottomBarData self' task).
Proof.
  intros Hen Hsub Hset Hp Ho Hb Hd H.
  assert (Hstate : isActive task = false /\ isSkipped task = false).
  { unfold isActive, isCompleted, hasFailed, hasRolledBack, isPending, isRetrying,
      isRollingBack, isSkipped, inState in *.
    destruct (state task) as [[]|]; cbn in *; auto; discriminate. }
  destruct Hstate as [Ha Hs].
  rewrite renderTask_eq, Hen in H.
  apply bind_Ok in H. destruct H as [titleLines [_ H]].
  apply bind_Ok in H. destruct H as [messageLines [_ H]].
  apply bind_Ok in H. destruct H as [[outputLines self1] [Eo H]].
  assert (Hno : shouldRenderSubtasks self1 task = false).
  { unfold shouldRenderSubtasks, hasSubtasks. rewrite Hsub. now rewrite andb_false_r. }
  rewrite Hno in H. injection H as _ <-.
  unfold currentTaskOutput in Eo. rewrite Ho, Ha, Hb, Hd in Eo. cbn [andb bind] in Eo.
  injection Eo as _ <-.
  unfold bottomBarData, afterTaskFinished. rewrite Hp.
  destruct (isCompleted task || hasFailed task || isSkipped task || hasRolledBack task);
    cbn [negb bottomBar setBottomBar setPromptBar]; rewrite barGet_barSet_same;
    rewrite Hs; cbn [negb andb];
    (destruct (existsb _ _) eqn:Ein; cbn [negb andb data];
     [now apply existsb_includes_single in Ein|apply in_or_app; right; now left]).
Qed.

(* ================================================================ *)
(** ** Further results: the frame and its regions *)

Lemma slice_suffix {A} (a : list A) (start : Z) :
  exists dropped, a = dropped ++ slice a start.
Proof.
  unfold slice. destruct (start <? 0); eexists; symmetry; apply firstn_skipn.
Qed.

Lemma sliceLast_lastn {A} (a : list A) (n : Z) :
  1 <= n -> sliceLast a (Some n) = lastn (Z.to_nat n) a.
Proof.
  intros H. unfold sliceLast, slice, lastn.
  destruct (- n <? 0) eqn:E; [|lia]. f_equal. lia.
Qed.

Lemma sliceLast_idempotent {A} (a : list A) (items : option Z) :
  match items with Some n => 0 <= n | None => True end ->
  sliceLast (sliceLast a items) items = sliceLast a items.
Proof.
  destruct items as [n|]; intros H; unfold sliceLast, slice.
  - destruct (- n <? 0) eqn:E.
    + rewrite length_skipn.
      replace (Z.to_nat (Z.max (Z.of_nat (length a
                 - Z.to_nat (Z.max (Z.of_nat (length a) + - n) 0)) + - n) 0))
        with 0%nat by lia.
      reflexivity.
    + assert (n = 0) by lia. subst n.
      assert (Hz : forall l : list A,
                Z.to_nat (Z.min (- 0) (Z.of_nat (length l))) = 0%nat) by (intros; lia).
      now rewrite !Hz.
  - assert (Hz : forall l : list A,
              Z.to_nat (Z.min 0 (Z.of_nat (length l))) = 0%nat) by (intros; lia).
    cbn [Z.ltb Z.compare]. now rewrite !Hz.
Qed.

(** X13. [renderBottomBar] keeps the keys, their order and their item
    counts, and drops lines from the front only: what an entry holds after
    it is an end piece of what it held, and for an item count [n] of at
    least 1 it is the latest [n] lines. *)
Theorem renderBottomBar_latest (self : DefaultRenderer) :
  Forall2 (fun old new =>
             fst new = fst old
             /\ items (snd new) = items (snd old)
             /\ (exists dropped, data (snd old) = dropped ++ data (snd new))
             /\ (forall n, items (snd old) = Some n -> 1 <= n ->
                   data (snd new) = lastn (Z.to_nat n) (data (snd old))))
          (bottomBar self) (bottomBar (snd (renderBottomBar self))).
Proof.
  unfold renderBottomBar.
  match goal with
  | |- Forall2 ?R _ _ =>
      assert (H : forall bar,
                Forall2 R bar
                  (map (fun '(key, entry) =>
                          (key, {| data := sliceLast (data entry) (items entry);
                                   items := items entry |})) bar))
  end.
  { induction bar as [|[key entry] bar IH]; cbn [map]; constructor; [|exact IH].
    cbn [fst snd data items]. repeat split.
    - unfold sliceLast. destruct (items entry); apply slice_suffix.
    - intros n Hn H1. rewrite Hn. now apply sliceLast_lastn. }
  destruct (bottomBar self) as [|b bar] eqn:Eb.
  - cbn [snd]. rewrite Eb. constructor.
  - cbn [snd bottomBar setBottomBar]. apply H.
Qed.

(** X14. When no item count is negative, [renderBottomBar] is idempotent:
    a second call returns the same text and leaves the same bottom bar. *)
Theorem renderBottomBar_idempotent (self : DefaultRenderer) :
  Forall (fun kv => match items (snd kv) with Some n => 0 <= n | None => True end)
         (bottomBar self) ->
  renderBottomBar (snd (renderBottomBar self)) = renderBottomBar self.
Proof.
  intros H. unfold renderBottomBar at 2 3.
  destruct (bottomBar self) as [|b bar] eqn:Eb.
  - cbn [snd]. unfold renderBottomBar. now rewrite Eb.
  - cbn [snd]. unfold renderBottomBar. cbn [bottomBar setBottomBar].
    set (f := fun '(key, entry) =>
                (key, {| data := sliceLast (data entry) (items entry);
                         items := items entry |})) in *.
    assert (Hf : map f (map f (b :: bar)) = map f (b :: bar)).
    { clear Eb. induction H as [|[key entry] rest Hkv _ IH]; [reflexivity|].
      cbn [map]. rewrite IH. f_equal. unfold f. cbn [data items snd] in *.
      now rewrite sliceLast_idempotent. }
    destruct (map f (b :: bar)) as [|b' bar'] eqn:Em; [discriminate|].
    rewrite Hf. reflexivity.
Qed.

Lemma renderBottomBar_settings (self : DefaultRenderer) :
  sameSettings self (snd (renderBottomBar self)).
Proof.
  unfold renderBottomBar. destruct (bottomBar self); now repeat split.
Qed.

Lemma createRender_settings (tasks : list Task) (opts : CreateRenderOptions)
  (self self' : DefaultRenderer) (frame : jsstring) :
  createRender tasks opts self = Ok (frame, self') -> sameSettings self self'.
Proof.
  unfold createRender, multiLineRenderer. intros H.
  apply bind_Ok in H. destruct H as [[renderTasks self1] [E H]].
  apply bind_Ok in E. destruct E as [[lines self1'] [Ef E]]. injection E as _ ->.
  pose proof (renderBottomBar_settings self1) as S2.
  destruct (renderBottomBar self1) as [renderedBottomBar self2].
  injection H as _ <-. cbn [snd] in S2.
  eapply sameSettings_trans; [|exact S2].
  apply (forEachTask_frame (renderTask tasks 0) tasks) with (lines := lines);
    [|exact Ef].
  apply Forall_forall. intros task _. apply renderTask_frame.
Qed.

(** X17. The frame of [createRender] is made of the regions that are
    selected and not blank, in the order tasks, bottom bar, prompt, with one
    empty line between two regions and none in front; it is the empty
    string when there is none. *)
Theorem createRender_regions (tasks : list Task) (opts : CreateRenderOptions)
  (self : DefaultRenderer) :
  createRender tasks opts self
  = ('(renderTasks, self1) <- multiLineRenderer tasks 0 self ;;
     Ok (join (EOL ++ EOL)
           (shown (withTasks opts) renderTasks
            ++ shown (withBottomBar opts) (fst (renderBottomBar self1))
            ++ shown (withPrompt opts) (renderPrompt (snd (renderBottomBar self1)))),
         snd (renderBottomBar self1))).
Proof.
  unfold createRender, shown.
  destruct (multiLineRenderer tasks 0 self) as [[renderTasks self1]|]; [|reflexivity].
  cbn [bind]. destruct (renderBottomBar self1) as [renderedBottomBar self2].
  cbn [fst snd].
  destruct (withTasks opts && nonBlank renderTasks),
    (withBottomBar opts && nonBlank renderedBottomBar),
    (withPrompt opts && nonBlank (renderPrompt self2)); cbn;
    rewrite <- ?app_assoc; reflexivity.
Qed.

(** X18. A tick of the timer moves the spinner on by one frame, around its
    end, and the pass that follows leaves it there: after a tick that
    returns, the position is within the spinner and the current frame is one
    of the frames of the spinner. *)
Theorem tick_spinner (tasks : list Task) (self self' : DefaultRenderer)
  (frame : jsstring) :
  spinner self <> [] ->
  tick tasks self = Ok (frame, self') ->
  spinner self' = spinner self
  /\ spinnerPosition self'
     = Nat.modulo (S (spinnerPosition self)) (length (spinner self))
  /\ (spinnerPosition self' < length (spinner self'))%nat
  /\ In (currentFrame self') (spinner self').
Proof.
  intros Hne H. unfold tick in H.
  apply createRender_settings in H. destruct H as [_ [Hs Hp]].
  cbn [spinner spinnerPosition setSpinnerPosition] in Hs, Hp.
  assert (Hlen : length (spinner self) <> 0%nat) by (destruct (spinner self); easy).
  assert (Hlt : (spinnerPosition self' < length (spinner self'))%nat).
  { rewrite <- Hp, <- Hs. now apply Nat.mod_upper_bound. }
  repeat split; auto.
  unfold currentFrame. now apply nth_In.
Qed.

(** X19. [end] writes nothing when [clearOutput] is set; otherwise it
    writes the tasks and the bottom bar, never the prompt, and ends the text
    with [EOL]. *)
Theorem endWrite_regions (tasks : list Task) (self : DefaultRenderer) :
  endWrite tasks self
  = if flag (options self) clearOutput then Ok None
    else
      '(renderTasks, self1) <- multiLineRenderer tasks 0 self ;;
      Ok (Some (join (EOL ++ EOL)
                  (shown true renderTasks
                   ++ shown true (fst (renderBottomBar self1)))
                ++ EOL)).
Proof.
  unfold endWrite, createRender, shown.
  destruct (flag (options self) clearOutput); [reflexivity|].
  destruct (multiLineRenderer tasks 0 self) as [[renderTasks self1]|]; [|reflexivity].
  cbn [bind]. destruct (renderBottomBar self1) as [renderedBottomBar self2].
  cbn [fst snd withTasks withBottomBar withPrompt andb].
  destruct (nonBlank renderTasks), (nonBlank renderedBottomBar); cbn;
    rewrite <- ?app_assoc; reflexivity.
Qed.

(** X21. For an enabled pending task with a title that is not shown as
    stopped (no task of its list has failed, or its [exitOnError] is
    [false]): the title line is the title behind the current frame of the
    spinner, or behind the pointer when the renderer is lazy or when the
    subtasks of the task are shown and one of them has a title. *)
Theorem pending_title_line (self : DefaultRenderer) (tasks : list Task)
  (task : Task) (level : Z) (t : jsstring) :
  isEnabled task = true ->
  title task = Some t ->
  isPending task = true ->
  existsb hasFailed tasks = false \/ exitOnError task = Some false ->
  titleLineIs self tasks level task t
    (if flag (options self) lazy
        || getSelfOrParentOption self task showSubtasks && hasSubtasks task
           && existsb hasTitle (subtasks task)
     then chalk.yellow figures.pointer
     else chalk.yellowBright (currentFrame self)).
Proof.
  intros Hen Ht Hp Hstop. apply titleLineIs_intro; [assumption|].
  assert (Hnot : isStopped tasks task = false).
  { unfold isStopped. destruct Hstop as [-> | ->]; [reflexivity|].
    cbn. now rewrite andb_false_r. }
  assert (Hex : negb (forallb (fun subtask => negb (hasTitle subtask)) (subtasks task))
                = existsb hasTitle (subtasks task)).
  { induction (subtasks task) as [|sub subs IH]; cbn; [reflexivity|].
    rewrite negb_andb, negb_involutive. now rewrite IH. }
  unfold currentTaskTitle. rewrite Ht, Hnot. cbn [negb].
  apply inState_eq in Hp.
  unfold getSymbol, hasFailed, isCompleted, isSkipped, isPending, isRetrying,
    isRollingBack, hasRolledBack, inState. rewrite Hp, Hex. reflexivity.
Qed.

(** A test for [onlyLF] that computes. *)
Lemma onlyLF_check (s : jsstring) :
  forallb (fun c => negb (isLineTerminator c) || N.eqb c 10) s = true -> onlyLF s.
Proof.
  intros H. apply Forall_forall. intros c Hc Ht.
  rewrite forallb_forall in H. specialize (H c Hc).
  rewrite Ht in H. cbn in H. now apply N.eqb_eq.
Qed.

End Renderer.

(* ================================================================== *)
(** ** The renderer on concrete tasks *)

Example wrapAnsi_words :
  wrapAnsi (lit "the quick brown fox") 9 = lit "the quick" ++ EOL ++ lit "brown fox".
Proof. reflexivity. Qed.

Example wrapAnsi_long_word :
  wrapAnsi (lit "> abcdefgh") 4 = lit ">" ++ EOL ++ lit "abcd" ++ EOL ++ lit "efgh".
Proof. reflexivity. Qed.

(** A task skipped with the reason "not needed", [collapseSkips] on. *)
Example createRender_skipped :
  exists self',
    createRender (Some 80) wrapAnsi noTaskTime [skippedInstall] createRender_default
      defaultRenderer
    = Ok (figures.arrowDown ++ lit " not needed [SKIPPED]", self').
Proof. eexists. reflexivity. Qed.

(** *** [formatString] *)

Lemma formatString_blank_witness :
  trim (lit "   ") = []
  /\ formatString (Some 80) wrapAnsi (newRenderer (withFormat (otherFormat "table")))
       (lit "   ") (lit ">") 0 = Ok None.
Proof.
  split; [reflexivity|].
  apply (formatString_blank (Some 80) wrapAnsi); reflexivity.
Defined.

(** A blank string is not an error under an unknown format, and a negative
    indentation is one under a declared format. *)
Lemma formatString_throws_counterexample :
  ~ (throws (formatString (Some 80) wrapAnsi
               (newRenderer (withFormat (otherFormat "table"))) (lit "   ") (lit ">") 0)
     = true
     <-> formatOutput (withFormat (otherFormat "table")) <> truncate
         /\ formatOutput (withFormat (otherFormat "table")) <> wrap)
  /\ formatOutput (withIndentation (-2)) = truncate
  /\ formatString (Some 80) wrapAnsi (newRenderer (withIndentation (-2)))
       (lit "x") (lit ">") 1 = Throw RangeError.
Proof.
  split; [|split; reflexivity].
  intros [_ H]. assert (E : false = true) by (apply H; split; discriminate).
  discriminate E.
Qed.

Lemma formatString_throws_iff_witness :
  throws (formatString (Some 80) wrapAnsi
            (newRenderer (withFormat (otherFormat "table"))) (lit "x") (lit ">") 0) = true
  /\ throws (formatString (Some 80) wrapAnsi defaultRenderer (lit "x") (lit ">") 3) = false
  /\ throws (formatString (Some 80) wrapAnsi defaultRenderer (lit "   ") (lit ">") 3) = false.
Proof.
  split; [|split].
  - apply (formatString_throws_iff (Some 80) wrapAnsi
             (newRenderer (withFormat (otherFormat "table"))) (lit "x") (lit ">") 0);
      [lia | simpl; lia | discriminate | split; discriminate].
  - destruct (formatString_throws_iff (Some 80) wrapAnsi defaultRenderer
                (lit "x") (lit ">") 3) as [H _]; [lia | simpl; lia |].
    specialize (H ltac:(discriminate)). destruct H as [H _].
    destruct (throws _); [|reflexivity].
    destruct (H eq_refl) as [E _]. now elim E.
  - apply (formatString_throws_iff (Some 80) wrapAnsi defaultRenderer
             (lit "   ") (lit ">") 3); [lia | simpl; lia | reflexivity].
Defined.

(** Where the claimed widths fail: trailing white space is trimmed; a blank
    line inside the text is dropped; the cut text is indented after the cut;
    nothing is left when no column is available; a negative indent is an
    error; a wrapped continuation line is indented after the wrapping. *)
Lemma formatString_widths_counterexample :
  (stringWidth (lit ">" ++ lit " " ++ lit "done  ") < availableColumns (Some 20) defaultRenderer 0
   /\ formatString (Some 20) wrapAnsi defaultRenderer (lit "done  ") (lit ">") 0
      = Ok (Some (lit "> done"))
   /\ lit "> done" <> lit ">" ++ lit " " ++ lit "done  ")
  /\ formatString (Some 20) wrapAnsi defaultRenderer
       (lit "a" ++ EOL ++ EOL ++ lit "b") (lit ">") 0
     = Ok (Some (lit "> a" ++ EOL ++ lit "  b"))
  /\ (availableColumns (Some 20) defaultRenderer 2 = 14
      /\ exists out,
           formatString (Some 20) wrapAnsi defaultRenderer
             (lit "a long title that does not fit") (lit ">") 2 = Ok (Some out)
           /\ out = lit "    > a long titl" ++ ellipsis
           /\ stringWidth out = 18)
  /\ (availableColumns (Some 10) defaultRenderer 5 = -2
      /\ formatString (Some 10) wrapAnsi defaultRenderer (lit "title") (lit ">") 5
         = Ok (Some []))
  /\ formatString (Some 80) wrapAnsi (newRenderer (withIndentation (-2)))
       (lit "x") (lit ">") 1 = Throw RangeError
  /\ (availableColumns (Some 6) (newRenderer (withFormat wrap)) 0 = 4
      /\ exists out,
           formatString (Some 6) wrapAnsi (newRenderer (withFormat wrap))
             (lit "abcd") (lit ">") 0 = Ok (Some out)
           /\ split out = [lit ">"; lit "  abcd"]
           /\ ~ Forall (fun l => stringWidth l <= 4) (split out)).
Proof.
  split; [|split; [|split; [|split; [|split]]]].
  - split; [reflexivity|split; [reflexivity|discriminate]].
  - reflexivity.
  - split; [reflexivity|]. eexists. split; [reflexivity|split; reflexivity].
  - split; reflexivity.
  - reflexivity.
  - split; [reflexivity|]. eexists. split; [reflexivity|]. split; [reflexivity|].
    intros H. inversion H as [|? ? _ H']; subst. inversion H' as [|? ? Hw _]; subst.
    vm_compute in Hw. now apply Hw.
Qed.

Lemma formatString_layout_witness :
  formatString (Some 20) wrapAnsi defaultRenderer (lit "done  ") (lit ">") 1
  = Ok (Some (lit "  > done"))
  /\ (exists t,
        formatString (Some 20) wrapAnsi defaultRenderer
          (lit "a long title that does not fit") (lit ">") 2
        = Ok (Some (lit "    " ++ t))
        /\ stringWidth t = 14)
  /\ (exists out,
        formatString (Some 12) wrapAnsi (newRenderer (withFormat wrap))
          (lit "abcdefghijkl mnop") (lit ">") 1 = Ok (Some out)
        /\ Forall (fun l => stringWidth l <= 12) (split out)).
Proof.
  split; [|split].
  - destruct (formatString_layout (Some 20) wrapAnsi defaultRenderer
                (lit "done  ") (lit ">") 1) as [H _];
      [discriminate | simpl; lia |].
    destruct H as [H _]; [reflexivity | reflexivity |].
    apply H. reflexivity.
  - destruct (formatString_layout (Some 20) wrapAnsi defaultRenderer
                (lit "a long title that does not fit") (lit ">") 2) as [H _];
      [discriminate | simpl; lia |].
    destruct H as [_ H]; [reflexivity | reflexivity |].
    destruct H as [t [E [Hw _]]]; [reflexivity | vm_compute; discriminate |].
    exists t. split; [exact E | exact Hw].
  - destruct (formatString_layout (Some 12) wrapAnsi (newRenderer (withFormat wrap))
                (lit "abcdefghijkl mnop") (lit ">") 1) as [_ H];
      [discriminate | simpl; lia |].
    apply H; [reflexivity | reflexivity |].
    vm_compute. repeat constructor; discriminate.
Defined.

(** *** Title lines *)

Lemma dumpData_error_repeats_title_witness :
  dumpData (Some 80) wrapAnsi (newRenderer (withFlag collapseErrors false))
    failedBuild 0 srcError = Ok None
  /\ currentTaskMessages (Some 80) wrapAnsi (newRenderer (withFlag collapseErrors false))
       failedBuild 0 = Ok [None].
Proof.
  destruct (dumpData_error_repeats_title (Some 80) wrapAnsi
              (newRenderer (withFlag collapseErrors false)) failedBuild 0 (lit "build")
              eq_refl eq_refl) as [H _].
  split; [exact H | reflexivity].
Defined.

Lemma stopped_title_line_witness :
  titleLineIs (Some 80) wrapAnsi noTaskTime defaultRenderer [failedA; pendingB] 0
    pendingB (lit "B") figures.squareSmallFilled
  /\ exists self',
       multiLineRenderer (Some 80) wrapAnsi noTaskTime [failedA; pendingB] 0 defaultRenderer
       = Ok (Some (figures.cross ++ lit " A" ++ EOL
                   ++ figures.squareSmallFilled ++ lit " B"), self').
Proof.
  split.
  - apply (stopped_title_line (Some 80) wrapAnsi noTaskTime defaultRenderer
             [failedA; pendingB] pendingB 0 (lit "B"));
      try reflexivity; discriminate.
  - eexists. reflexivity.
Defined.

(** A retrying task with [suffixRetries] on, next to a failed task: its
    title line is the title behind the stopped marker, without the suffix. *)
Lemma retrying_title_counterexample :
  isEnabled retryingB = true
  /\ isRetrying retryingB = true
  /\ getSelfOrParentOption defaultRenderer retryingB suffixRetries = true
  /\ currentTaskTitle (Some 80) wrapAnsi noTaskTime defaultRenderer
       [failedA; retryingB] retryingB 0
     = Ok [Some (figures.squareSmallFilled ++ lit " B")]
  /\ (forall icon,
        currentTaskTitle (Some 80) wrapAnsi noTaskTime defaultRenderer
          [failedA; retryingB] retryingB 0
        <> Ok [Some (icon ++ lit " " ++ lit "B [RETRYING-1]")])
  /\ exists self',
       multiLineRenderer (Some 80) wrapAnsi noTaskTime [failedA; retryingB] 0
         defaultRenderer
       = Ok (Some (figures.cross ++ lit " A" ++ EOL
                   ++ figures.squareSmallFilled ++ lit " B"), self').
Proof.
  repeat (split; [reflexivity|]). split.
  - intros icon H.
    change (Ok [Some (figures.squareSmallFilled ++ lit " B")]
            = Ok [Some (icon ++ lit " " ++ lit "B [RETRYING-1]")]) in H.
    injection H as E.
    apply (f_equal (@length char)) in E. rewrite !length_app in E. simpl in E. lia.
  - eexists. reflexivity.
Qed.

Lemma skipped_and_retrying_title_lines_witness :
  titleLineIs (Some 80) wrapAnsi noTaskTime defaultRenderer [skippedInstall] 0
    skippedInstall (lit "not needed [SKIPPED]") figures.arrowDown
  /\ titleLineIs (Some 80) wrapAnsi noTaskTime defaultRenderer [retryingB] 0
       retryingB (lit "B [RETRYING-1]") (currentFrame defaultRenderer).
Proof.
  split.
  - destruct (skipped_and_retrying_title_lines (Some 80) wrapAnsi noTaskTime
                defaultRenderer [skippedInstall] skippedInstall 0 (lit "Install")
                eq_refl eq_refl) as [H _].
    exact (H eq_refl eq_refl).
  - destruct (skipped_and_retrying_title_lines (Some 80) wrapAnsi noTaskTime
                defaultRenderer [retryingB] retryingB 0 (lit "B")
                eq_refl eq_refl) as [_ H].
    exact (H eq_refl eq_refl (or_introl eq_refl) 1 eq_refl).
Defined.

(** *** Subtasks *)

(** A completed task with a title, [collapse] off for it, whose subtask sets
    no [collapse], has not failed and has not rolled back: the subtask is
    rendered.  A task without a title: its subtask is rendered at the level
    of the task. *)
Lemma subtasks_rendered_counterexample :
  (isPending completedParent = false
   /\ hasFailed completedParent = false
   /\ title completedParent <> None
   /\ Forall (fun subtask => rendererOptions subtask collapse <> Some false
                             /\ hasFailed subtask = false
                             /\ hasRolledBack subtask = false)
        (subtasks completedParent)
   /\ shouldRenderSubtasks (newRenderer (withFlag collapse false)) completedParent = true
   /\ exists self',
        multiLineRenderer (Some 80) wrapAnsi noTaskTime [completedParent] 0
          (newRenderer (withFlag collapse false))
        = Ok (Some (figures.tick ++ lit " P" ++ EOL
                    ++ lit "  " ++ figures.tick ++ lit " S"), self'))
  /\ (shouldRenderSubtasks lazyRenderer untitledParent = true
      /\ exists self',
           multiLineRenderer (Some 80) wrapAnsi noTaskTime [untitledParent] 0 lazyRenderer
           = Ok (Some (figures.tick ++ lit " S"), self')).
Proof.
  split.
  - split; [reflexivity|]. split; [reflexivity|]. split; [discriminate|].
    split; [|split; [reflexivity|eexists; reflexivity]].
    repeat constructor; discriminate.
  - split; [reflexivity|]. eexists. reflexivity.
Qed.

Lemma subtasks_rendered_iff_witness :
  shouldRenderSubtasks (newRenderer (withFlag collapse false)) completedParent = true
  /\ shouldRenderSubtasks defaultRenderer completedParent = false.
Proof.
  destruct (subtasks_rendered_iff (Some 80) wrapAnsi noTaskTime
              (newRenderer (withFlag collapse false)) [completedParent]
              completedParent 0 eq_refl) as [H _].
  split; [|reflexivity].
  apply H. split; [reflexivity|]. split; [discriminate|].
  right. right. right. left.
  split; [reflexivity|]. split; [reflexivity|]. repeat constructor; discriminate.
Defined.

(** *** Output *)



Lemma bottomBar_append_once_witness :
  exists self',
    currentTaskOutput (Some 80) wrapAnsi rendererWithLine bottomBarTask 0 = Ok ([], self')
    /\ bottomBarData self' bottomBarTask = [Some (figures.pointerSmall ++ lit " 10%")].
Proof.
  destruct (bottomBar_append_once (Some 80) wrapAnsi rendererWithLine bottomBarTask 0
              (Some (figures.pointerSmall ++ lit " 10%"))
              eq_refl eq_refl eq_refl eq_refl) as [self' [E [H _]]].
  exists self'. split; [exact E|].
  rewrite H; [reflexivity|]. left. reflexivity.
Defined.

(** *** The bottom bar *)

(** C2, at an input where the code departs from it.  A pending task without
    a title and with [bottomBar: 0] writes "a", the frame is rendered, it
    writes "b", the frame is rendered again: its bottom bar storage, whose
    item count is 0, holds both lines and both are shown, more than the
    count that bounds the lines a task retains. *)
Theorem bottomBar_zero_items_keeps_all :
  exists frame1 self1 frame2 self2,
    createRender (Some 80) wrapAnsi noTaskTime [untitledWriter (lit "a")]
      createRender_default defaultRenderer = Ok (frame1, self1)
    /\ createRender (Some 80) wrapAnsi noTaskTime [untitledWriter (lit "b")]
         createRender_default self1 = Ok (frame2, self2)
    /\ barGet "t" (bottomBar self2)
       = Some {| data := [Some (figures.pointerSmall ++ lit " a");
                          Some (figures.pointerSmall ++ lit " b")];
                 items := Some 0 |}
    /\ frame2 = figures.pointerSmall ++ lit " a" ++ EOL ++ figures.pointerSmall ++ lit " b".
Proof.
  do 4 eexists. split; [reflexivity|]. split; [reflexivity|]. split; reflexivity.
Qed.

(* ================================================================== *)
(** ** The further results on concrete tasks *)



Lemma formatString_no_empty_line_witness :
  exists out,
    formatString (Some 20) wrapAnsi defaultRenderer
      (lit "a" ++ EOL ++ EOL ++ lit "b") (lit ">") 0 = Ok (Some out)
    /\ (out = [] \/ Forall (fun l => l <> []) (split out)).
Proof.
  apply (formatString_no_empty_line (Some 20) wrapAnsi);
    [reflexivity | reflexivity | discriminate | apply onlyLF_check; reflexivity
    | simpl; lia].
Defined.

Lemma getSymbol_still_witness :
  getSymbol defaultRenderer failedA false
  = getSymbol (setSpinnerPosition 3 defaultRenderer) failedA false.
Proof.
  apply getSymbol_still; [reflexivity|]. right. left. reflexivity.
Defined.

Lemma failed_title_line_witness :
  titleLineIs (Some 80) wrapAnsi noTaskTime defaultRenderer [failedDeploy] 0
    failedDeploy (lit "no route to host") figures.cross.
Proof.
  exact (failed_title_line (Some 80) wrapAnsi noTaskTime defaultRenderer
           [failedDeploy] failedDeploy 0 (lit "Deploy")
           eq_refl eq_refl eq_refl eq_refl).
Defined.

Lemma completed_title_line_witness :
  titleLineIs (Some 80) wrapAnsi (fun _ => lit "1s")
    (newRenderer (withFlag showTimer true)) [completedSub] 0 completedSub
    (lit "S [1s]") figures.tick.
Proof.
  apply (completed_title_line (Some 80) wrapAnsi (fun _ => lit "1s")
           (newRenderer (withFlag showTimer true)) [completedSub] completedSub 0
           (lit "S")); reflexivity.
Defined.

Lemma skipped_uncollapsed_lines_witness :
  titleLineIs (Some 80) wrapAnsi noTaskTime (newRenderer (withFlag collapseSkips false))
    [skippedInstall] 0 skippedInstall (lit "Install") figures.warning
  /\ currentTaskMessages (Some 80) wrapAnsi (newRenderer (withFlag collapseSkips false))
       skippedInstall 0
     = Ok [Some (lit "  " ++ figures.arrowDown ++ lit " not needed")].
Proof.
  destruct (skipped_uncollapsed_lines (Some 80) wrapAnsi noTaskTime
              (newRenderer (withFlag collapseSkips false)) [skippedInstall]
              skippedInstall 0 (lit "Install") eq_refl eq_refl eq_refl eq_refl)
    as [H1 H2].
  split; [exact H1|]. rewrite H2. reflexivity.
Defined.

Lemma failed_uncollapsed_lines_witness :
  titleLineIs (Some 80) wrapAnsi noTaskTime (newRenderer (withFlag collapseErrors false))
    [failedBuild] 0 failedBuild (lit "build") figures.cross
  /\ currentTaskMessages (Some 80) wrapAnsi (newRenderer (withFlag collapseErrors false))
       failedBuild 0 = Ok [None].
Proof.
  destruct (failed_uncollapsed_lines (Some 80) wrapAnsi noTaskTime
              (newRenderer (withFlag collapseErrors false)) [failedBuild]
              failedBuild 0 (lit "build") eq_refl eq_refl eq_refl eq_refl)
    as [H1 H2].
  split; [exact H1|]. rewrite H2. reflexivity.
Defined.

Lemma multiLineRenderer_frame_witness :
  exists render self',
    multiLineRenderer (Some 80) wrapAnsi noTaskTime [untitledWriter (lit "b")] 0
      rendererWithLine = Ok (render, self')
    /\ sameSettings rendererWithLine self'
    /\ barGet "d" (bottomBar self') = barGet "d" (bottomBar rendererWithLine).
Proof.
  do 2 eexists. split; [reflexivity|].
  destruct (multiLineRenderer_frame (Some 80) wrapAnsi noTaskTime
              [untitledWriter (lit "b")] 0 rendererWithLine _ _ eq_refl) as [H1 H2].
  split; [exact H1|]. apply H2. intros [H|[]]. discriminate H.
Defined.

Lemma multiLineRenderer_not_empty_witness :
  exists render self',
    multiLineRenderer (Some 80) wrapAnsi noTaskTime [failedA; pendingB] 0
      defaultRenderer = Ok (Some render, self')
    /\ render <> [].
Proof.
  do 2 eexists. split; [reflexivity|].
  apply (multiLineRenderer_not_empty (Some 80) wrapAnsi noTaskTime
           [failedA; pendingB] 0 defaultRenderer _ _ eq_refl).
Defined.

Lemma disabled_task_invisible_witness :
  multiLineRenderer (Some 80) wrapAnsi noTaskTime
    ([failedA] ++ disabledOptional :: [pendingB]) 0 defaultRenderer
  = multiLineRenderer (Some 80) wrapAnsi noTaskTime ([failedA] ++ [pendingB]) 0
      defaultRenderer.
Proof.
  apply (disabled_task_invisible (Some 80) wrapAnsi noTaskTime); reflexivity.
Defined.

Lemma persistent_bottomBar_kept_witness :
  exists lines self',
    renderTask (Some 80) wrapAnsi noTaskTime [] 0 persistentFetch defaultRenderer
    = Ok (lines, self')
    /\ In (Some (figures.pointerSmall ++ lit " done"))
          (bottomBarData self' persistentFetch).
Proof.
  do 2 eexists. split; [reflexivity|].
  exact (persistent_bottomBar_kept (Some 80) wrapAnsi noTaskTime [] 0 persistentFetch
           defaultRenderer _ _ (Some (figures.pointerSmall ++ lit " done"))
           eq_refl eq_refl eq_refl eq_refl eq_refl eq_refl eq_refl eq_refl).
Defined.

Lemma renderBottomBar_idempotent_witness :
  renderBottomBar (snd (renderBottomBar rendererWithLine))
  = renderBottomBar rendererWithLine.
Proof.
  apply renderBottomBar_idempotent. repeat constructor. cbn. lia.
Defined.

Lemma createRender_bound_witness :
  exists frame self' entry,
    createRender (Some 80) wrapAnsi noTaskTime [download PENDING (lit "20%")]
      createRender_default rendererWithLine = Ok (frame, self')
    /\ In ("d"%string, entry) (bottomBar self')
    /\ Z.of_nat (length (data entry)) <= 1.
Proof.
  do 3 eexists. split; [reflexivity|]. split; [left; reflexivity|].
  apply (createRender_bound (Some 80) wrapAnsi noTaskTime
           [download PENDING (lit "20%")] createRender_default rendererWithLine
           _ _ "d"%string _ 1 eq_refl); [left; reflexivity | reflexivity | lia].
Defined.

Lemma renderTask_settled_witness :
  exists lines self',
    renderTask (Some 80) wrapAnsi noTaskTime [] 0 (download COMPLETED (lit "100%"))
      (setPromptBar (Some (lit "name?")) rendererWithLine) = Ok (lines, self')
    /\ promptBar self' = None
    /\ barGet "d" (bottomBar self') = None.
Proof.
  do 2 eexists. split; [reflexivity|].
  destruct (renderTask_settled (Some 80) wrapAnsi noTaskTime [] 0
              (download COMPLETED (lit "100%"))
              (setPromptBar (Some (lit "name?")) rendererWithLine) _ _
              eq_refl eq_refl eq_refl) as [H1 H2].
  split; [exact H1|]. apply H2. reflexivity.
Defined.

Lemma tick_spinner_witness :
  exists frame self',
    tick (Some 80) wrapAnsi noTaskTime [pendingB]
      (setSpinnerPosition 9 defaultRenderer) = Ok (frame, self')
    /\ spinnerPosition self' = 0%nat
    /\ In (currentFrame self') (spinner self').
Proof.
  do 2 eexists. split; [reflexivity|].
  destruct (tick_spinner (Some 80) wrapAnsi noTaskTime [pendingB]
              (setSpinnerPosition 9 defaultRenderer) _ _
              ltac:(discriminate) eq_refl) as [_ [H1 [_ H2]]].
  split; [exact H1 | exact H2].
Defined.

Lemma pending_title_line_witness :
  titleLineIs (Some 80) wrapAnsi noTaskTime defaultRenderer [pendingB] 0 pendingB
    (lit "B") (currentFrame defaultRenderer).
Proof.
  exact (pending_title_line (Some 80) wrapAnsi noTaskTime defaultRenderer [pendingB]
           pendingB 0 (lit "B") eq_refl eq_refl eq_refl (or_introl eq_refl)).
Defined.
